(** * smshandler: provider / logger composition of [sms/handlers.py]

    A shallow embedding of the module [sms.handlers]: the two logging mixins,
    the two gateway mixins, [BaseSMSHandler] and the factory [get_handler],
    followed by the properties of the composition that the specification
    states about them.

    Python values are an inductive type, dictionaries are insertion-ordered
    association lists (the order is what [str.format] prints), exceptions are
    the left summand of the result, and everything the module does to the
    outside (HTTP requests, [logging], [sqlite3]) is recorded in an explicit
    world that is threaded through every call. *)

From Stdlib Require Import String Ascii List ZArith Bool Lia DecimalString.
Import ListNotations.
Open Scope string_scope.

(** ** Python values *)

Set Warnings "-register-all".

Inductive pyval : Type :=
| PNone
| PBool (b : bool)
| PInt (z : Z)
| PFloat (bits : Z)          (* an IEEE double, kept opaque *)
| PStr (s : string)
| PList (l : list pyval)
| PDict (d : list (string * pyval)).

(** A [dict] whose keys are strings; the keys of a well-formed one are
    pairwise distinct. *)
Definition dict := list (string * pyval).

Definition dict_wf (d : dict) : Prop := NoDup (map fst d).

(** [d.get(k)] as an option ([None] when the key is absent). *)
Fixpoint dict_lookup (d : dict) (k : string) : option pyval :=
  match d with
  | [] => None
  | (k', v) :: d' => if String.eqb k' k then Some v else dict_lookup d' k
  end.

(** [d.get(k, default)]. *)
Definition dict_get (d : dict) (k : string) (default : pyval) : pyval :=
  match dict_lookup d k with
  | Some v => v
  | None => default
  end.

(** [d[k] = v]: an existing key keeps its place, a new one goes last. *)
Fixpoint dict_set (d : dict) (k : string) (v : pyval) : dict :=
  match d with
  | [] => [(k, v)]
  | (k', v') :: d' =>
      if String.eqb k' k then (k', v) :: d' else (k', v') :: dict_set d' k v
  end.

(** [d.update(other)]. *)
Definition dict_update (d other : dict) : dict :=
  fold_left (fun acc kv => dict_set acc (fst kv) (snd kv)) other d.

(** [del d[k]] for a key that may be absent. *)
Fixpoint dict_remove (d : dict) (k : string) : dict :=
  match d with
  | [] => []
  | (k', v) :: d' =>
      if String.eqb k' k then dict_remove d' k else (k', v) :: dict_remove d' k
  end.

(** [x is None]. *)
Definition is_None (v : pyval) : bool :=
  match v with PNone => true | _ => false end.

(** [x == s] for a string literal [s]: only a [str] can be equal to it. *)
Definition eq_str (v : pyval) (s : string) : bool :=
  match v with PStr s' => String.eqb s' s | _ => false end.

(** ** Exceptions *)

Inductive exn : Type :=
| ValueError (msg : string)
| RuntimeError (msg : string)
| KeyError (key : string)
| TypeError (msg : string)
| AttributeError (name : string)
| JSONDecodeError
| OperationalError (msg : string)      (* sqlite3.OperationalError *)
| IntegrityError (msg : string)        (* sqlite3.IntegrityError *)
| InterfaceError (msg : string)        (* sqlite3: parameter of unsupported type *)
| OverflowError (msg : string).

(** [isinstance(e, ValueError)]; none of the other classes above derives from
    [ValueError] except [json.JSONDecodeError]. *)
Definition is_ValueError (e : exn) : bool :=
  match e with
  | ValueError _ | JSONDecodeError => true
  | _ => false
  end.

(** ** The outside world *)

Inductive http_method := GET | POST.

Record Request := mkRequest {
  req_method : http_method;
  req_url : string;
  req_payload : dict          (* [params=] of a GET, [data=] of a POST *)
}.

Record Response := mkResponse {
  status_code : Z;
  text : string
}.

(** A row as it is bound to [INSERT INTO Results VALUES (?, ?, ?, ?)]. *)
Record Row := mkRow {
  success : Z;
  phone : pyval;
  error_code : pyval;
  error_msg : pyval
}.

(** One database file: whether the table [Results] exists, the rows that are
    committed, and the rows of the open transaction of the connection. *)
Record Store := mkStore {
  has_table : bool;
  committed : list Row;
  pending : list Row
}.

Inductive Event : Type :=
| EvRequest (r : Request)                       (* requests.get / requests.post *)
| EvGetLogger (name : string)                   (* logging.getLogger(name) *)
| EvConnect (uri : string)                      (* sqlite3.connect(uri, uri=True) *)
| EvInfo (fmt : string) (args : list pyval).    (* logger.info(fmt, *args) *)

Record World := mkWorld {
  trace : list Event;                 (* oldest first *)
  dbs : list (string * Store)         (* reachable databases by location *)
}.

(** What the module takes from its libraries and from the network. *)
Record Env := mkEnv {
  (** the gateway: its answer to a request, after the events so far *)
  transport : list Event -> Request -> Response;
  (** [json.loads]; [None] stands for [JSONDecodeError] *)
  json_loads : string -> option pyval;
  (** ['{}'.format(d)] for a dict [d] *)
  format_dict : dict -> string
}.

(** ** Computations: state passing with exceptions *)

Definition M (A : Type) : Type := World -> (exn + A) * World.

Definition ret {A} (a : A) : M A := fun w => (inr a, w).
Definition raise {A} (e : exn) : M A := fun w => (inl e, w).
Definition bind {A B} (m : M A) (k : A -> M B) : M B :=
  fun w => match m w with
           | (inl e, w') => (inl e, w')
           | (inr a, w') => k a w'
           end.

Declare Scope py_scope.
Delimit Scope py_scope with py.
Notation "x <- m ;; k" := (bind m (fun x => k))
  (at level 61, m at next level, right associativity) : py_scope.
Notation "m ;;; k" := (bind m (fun _ => k))
  (at level 61, right associativity) : py_scope.
Open Scope py_scope.

Definition emit (e : Event) : M unit :=
  fun w => (inr tt, mkWorld (trace w ++ [e]) (dbs w)).

Fixpoint store_lookup (l : list (string * Store)) (uri : string) : option Store :=
  match l with
  | [] => None
  | (u, s) :: l' => if String.eqb u uri then Some s else store_lookup l' uri
  end.

Fixpoint store_put (l : list (string * Store)) (uri : string) (s : Store)
  : list (string * Store) :=
  match l with
  | [] => [(uri, s)]
  | (u, s') :: l' =>
      if String.eqb u uri then (u, s) :: l' else (u, s') :: store_put l' uri s
  end.

(** *** The libraries the module calls *)

Section Libraries.
Variable env : Env.

(** [requests.get(url, params=params)] and [requests.post(url, data=data)]:
    one exchange with the gateway, which always yields a response object. *)
Definition requests_get (url : string) (params : dict) : M Response :=
  fun w =>
    let req := mkRequest GET url params in
    (inr (transport env (trace w) req),
     mkWorld (trace w ++ [EvRequest req]) (dbs w)).

Definition requests_post (url : string) (data : dict) : M Response :=
  fun w =>
    let req := mkRequest POST url data in
    (inr (transport env (trace w) req),
     mkWorld (trace w ++ [EvRequest req]) (dbs w)).

(** [json.loads(s)], also what [Response.json()] does to the body. *)
Definition loads (s : string) : M pyval :=
  match json_loads env s with
  | Some v => ret v
  | None => raise JSONDecodeError
  end.
End Libraries.

(** [logging.getLogger(name)]; the logger is identified by its name. *)
Definition getLogger (name : string) : M string :=
  emit (EvGetLogger name) ;;; ret name.

(** [logger.info(fmt, *args)] emits one record. *)
Definition logger_info (fmt : string) (args : list pyval) : M unit :=
  emit (EvInfo fmt args).

(** [sqlite3.connect(uri, uri=True).cursor()]: fails when the location cannot
    be opened; a new connection has no open transaction.  The cursor is
    identified by the location it is connected to. *)
Definition sqlite3_connect (uri : string) : M string :=
  fun w =>
    let tr := (trace w ++ [EvConnect uri])%list in
    match store_lookup (dbs w) uri with
    | None => (inl (OperationalError "unable to open database file"),
               mkWorld tr (dbs w))
    | Some s => (inr uri,
                 mkWorld tr (store_put (dbs w) uri
                               (mkStore (has_table s) (committed s) [])))
    end.

(** Which Python values [sqlite3] binds to a [?]: [None], [int] within 64
    bits, [float], [str]. *)
Definition sqlite_adapt (v : pyval) : option exn :=
  match v with
  | PNone | PBool _ | PFloat _ | PStr _ => None
  | PInt z =>
      if ((- 2 ^ 63 <=? z) && (z <? 2 ^ 63))%Z then None
      else Some (OverflowError "Python int too large to convert to SQLite INTEGER")
  | PList _ | PDict _ =>
      Some (InterfaceError "Error binding parameter - probably unsupported type")
  end.

Definition first_error (l : list (option exn)) : option exn :=
  fold_right (fun o acc => match o with Some e => Some e | None => acc end) None l.

(** [cursor.execute("INSERT INTO Results VALUES (...)", ...)] against the
    table of [SQLiteLoggingMixin.DDL]:
      success real NOT NULL CHECK (success IN (0, 1)), phone text NOT NULL,
      error_code integer, error_msg text.
    The row joins the open transaction.  The row keeps the values as they were
    bound; the conversions of the column affinities are not modelled. *)
Definition cursor_execute_insert (cur : string) (row : Row) : M unit :=
  fun w =>
    match store_lookup (dbs w) cur with
    | None => (inl (OperationalError "unable to open database file"), w)
    | Some s =>
        if negb (has_table s) then
          (inl (OperationalError "no such table: Results"), w)
        else
          match first_error [sqlite_adapt (phone row);
                             sqlite_adapt (error_code row);
                             sqlite_adapt (error_msg row)] with
          | Some e => (inl e, w)
          | None =>
              if negb ((success row =? 0) || (success row =? 1))%Z then
                (inl (IntegrityError "CHECK constraint failed: Results"), w)
              else if is_None (phone row) then
                (inl (IntegrityError "NOT NULL constraint failed: Results.phone"), w)
              else
                (inr tt,
                 mkWorld (trace w)
                   (store_put (dbs w) cur
                      (mkStore (has_table s) (committed s) (pending s ++ [row]))))
          end
    end.

(** [cursor.connection.commit()]. *)
Definition connection_commit (cur : string) : M unit :=
  fun w =>
    match store_lookup (dbs w) cur with
    | None => (inr tt, w)
    | Some s =>
        (inr tt,
         mkWorld (trace w)
           (store_put (dbs w) cur
              (mkStore (has_table s) (committed s ++ pending s) [])))
    end.

(** *** Method calls on values *)

(** [v.get(k)]: only a dict has the method. *)
Definition py_get (v : pyval) (k : string) : M pyval :=
  match v with
  | PDict d => ret (dict_get d k PNone)
  | _ => raise (AttributeError "get")
  end.

(** [v[k]]. *)
Definition py_getitem (v : pyval) (k : string) : M pyval :=
  match v with
  | PDict d =>
      match dict_lookup d k with
      | Some x => ret x
      | None => raise (KeyError k)
      end
  | _ => raise (TypeError "object is not subscriptable")
  end.

(** [str(n)] for an [int]. *)
Definition str_int (z : Z) : string := NilZero.string_of_int (Z.to_int z).

Definition dquote : string := String (ascii_of_nat 34) EmptyString.

(** ** The classes of [sms/handlers.py] *)

Inductive logger_mixin := SimpleLoggingMixin_cls | SQLiteLoggingMixin_cls.
Inductive handler_mixin := SMSCRU_SMSHandlerMixin_cls | SMSTRAFFIC_SMSHandlerMixin_cls.

(** A class made by [type(class_name, (logger, handler, BaseSMSHandler), {})];
    its method resolution order is
    [logger, handler, BaseSMSHandler, object]. *)
Record Class := mkClass {
  class_name : string;
  logger_base : logger_mixin;
  handler_base : handler_mixin
}.

(** An instance.  [login], [password] and [sender] are written by
    [BaseSMSHandler.__init__], the innermost constructor of the chain and the
    first one to touch the instance, so the record comes into being there;
    [token], [logger] and [c] are written by the mixins' constructors and are
    absent ([None] here, [AttributeError] on access) until then. *)
Record Obj := mkObj {
  obj_class : Class;
  login : pyval;
  password : pyval;
  sender : pyval;
  token : option pyval;
  logger : option string;
  c : option string
}.

Definition set_token (self : Obj) (t : pyval) : Obj :=
  mkObj (obj_class self) (login self) (password self) (sender self)
        (Some t) (logger self) (c self).
Definition set_logger (self : Obj) (l : string) : Obj :=
  mkObj (obj_class self) (login self) (password self) (sender self)
        (token self) (Some l) (c self).
Definition set_c (self : Obj) (cur : string) : Obj :=
  mkObj (obj_class self) (login self) (password self) (sender self)
        (token self) (logger self) (Some cur).

(** [self.name] for an attribute that may not be set yet. *)
Definition getattr {A} (name : string) (a : option A) : M A :=
  match a with
  | Some x => ret x
  | None => raise (AttributeError name)
  end.

Module BaseSMSHandler.

(** [def __init__(self, login, password, sender=None)], called with keyword
    arguments only. *)
Definition __init__ (cls : Class) (kwargs : dict) : M Obj :=
  if existsb (fun kv => negb (existsb (String.eqb (fst kv))
                                      ["login"; "password"; "sender"])) kwargs
  then raise (TypeError "__init__() got an unexpected keyword argument")
  else
    match dict_lookup kwargs "login", dict_lookup kwargs "password" with
    | Some l, Some p =>
        ret (mkObj cls l p (dict_get kwargs "sender" PNone) None None None)
    | _, _ => raise (TypeError "__init__() missing required positional argument")
    end.

End BaseSMSHandler.

Module SimpleLoggingMixin.

(** [super_init] is [super().__init__], the constructor that follows this
    class in the method resolution order of the instance's class. *)
Definition __init__ (super_init : dict -> M Obj) (kwargs : dict) : M Obj :=
  self <- super_init kwargs ;;
  l <- getLogger "sms" ;;
  ret (set_logger self l).

Definition _log (self : Obj) (result : pyval) : M unit :=
  status <- py_get result "status" ;;
  if is_None status then
    raise (ValueError ("Could not find " ++ dquote ++ "status" ++ dquote ++ " field"))
  else if eq_str status "ok" then
    l <- getattr "logger" (logger self) ;;
    p <- py_getitem result "phone" ;;
    logger_info "status: OK, phone: %s" [p]
  else if eq_str status "error" then
    l <- getattr "logger" (logger self) ;;
    p <- py_getitem result "phone" ;;
    m <- py_getitem result "error_msg" ;;
    logger_info "status: ERROR, phone: %s, message: %s" [p; m]
  else
    raise (RuntimeError "Unexpected value of status").

End SimpleLoggingMixin.

Module SQLiteLoggingMixin.

(** [def __init__(self, db_uri, **kwargs)]. *)
Definition __init__ (super_init : dict -> M Obj) (kwargs : dict) : M Obj :=
  match dict_lookup kwargs "db_uri" with
  | None => raise (TypeError "__init__() missing 1 required positional argument: 'db_uri'")
  | Some db_uri =>
      self <- super_init (dict_remove kwargs "db_uri") ;;
      match db_uri with
      | PStr uri =>
          cur <- sqlite3_connect uri ;;
          ret (set_c self cur)
      | _ => raise (TypeError "expected str, bytes or os.PathLike object")
      end
  end.

Definition _log (self : Obj) (response : pyval) : M unit :=
  status <- py_get response "status" ;;
  if is_None status then
    raise (ValueError ("Could not find " ++ dquote ++ "status" ++ dquote ++ " field"))
  else if eq_str status "ok" then
    cur <- getattr "c" (c self) ;;
    p <- py_getitem response "phone" ;;
    cursor_execute_insert cur (mkRow 1 p PNone PNone) ;;;
    connection_commit cur
  else if eq_str status "error" then
    cur <- getattr "c" (c self) ;;
    p <- py_getitem response "phone" ;;
    code <- py_getitem response "error_code" ;;
    m <- py_getitem response "error_msg" ;;
    cursor_execute_insert cur (mkRow 0 p code m) ;;;
    connection_commit cur
  else
    raise (ValueError "Unexpected value of status").

End SQLiteLoggingMixin.

Module SMSCRU_SMSHandlerMixin.

Definition request_url : string := "http://smsc.ru/someapi/message/".

(** [log] is [self._log], whichever class of the instance provides it. *)
Definition send (env : Env) (log : Obj -> pyval -> M unit)
           (self : Obj) (user_data : dict) : M unit :=
  let params := [("login", login self); ("psw", password self)] in
  let params := dict_update params user_data in
  r <- requests_get env request_url params ;;
  if negb (status_code r =? 200)%Z then
    log self (PDict [("status", PStr "error");
                     ("phone", dict_get user_data "phone" (PStr "-"));
                     ("error_code", PNone);
                     ("error_msg", PStr ("data: " ++ format_dict env user_data))])
  else
    response <- loads env (text r) ;;
    log self response.

End SMSCRU_SMSHandlerMixin.

Module SMSTRAFFIC_SMSHandlerMixin.

Definition request_url : string := "http://smstraffic.ru/superapi/message/".
Definition auth_url : string := "http://smstraffic.ru/superapi/auth/".

Definition _get_token (env : Env) (self : Obj) : M pyval :=
  let data := [("login", login self); ("pass", password self)] in
  r <- requests_post env auth_url data ;;
  if negb (status_code r =? 200)%Z then
    raise (RuntimeError ("Invalid response status code: "
                         ++ str_int (status_code r) ++ " != 200"))
  else
    decoded <- loads env (text r) ;;
    tok <- py_get decoded "token" ;;
    if is_None tok then
      raise (RuntimeError "Response from server does not contain token")
    else ret tok.

Definition __init__ (env : Env) (super_init : dict -> M Obj) (kwargs : dict)
  : M Obj :=
  self <- super_init kwargs ;;
  tok <- _get_token env self ;;
  ret (set_token self tok).

Definition send (env : Env) (log : Obj -> pyval -> M unit)
           (self : Obj) (user_data : dict) : M unit :=
  tok <- getattr "token" (token self) ;;
  let data := [("token", tok)] in
  let data := dict_update data user_data in
  r <- requests_post env request_url data ;;
  if negb (status_code r =? 200)%Z then
    log self (PDict [("status", PStr "error");
                     ("phone", dict_get user_data "phone" (PStr "-"));
                     ("error_code", PNone);
                     ("error_msg", PStr ("data: " ++ format_dict env user_data))])
  else
    response <- loads env (text r) ;;
    log self response.

End SMSTRAFFIC_SMSHandlerMixin.

(** ** Method resolution in a composed class *)

(** [self._log]: of the three bases only the logger mixin and
    [BaseSMSHandler] define it, and the logger mixin comes first. *)
Definition _log (self : Obj) : pyval -> M unit :=
  match logger_base (obj_class self) with
  | SimpleLoggingMixin_cls => SimpleLoggingMixin._log self
  | SQLiteLoggingMixin_cls => SQLiteLoggingMixin._log self
  end.

(** [self.send]: the handler mixin's. *)
Definition send (env : Env) (self : Obj) : dict -> M unit :=
  match handler_base (obj_class self) with
  | SMSCRU_SMSHandlerMixin_cls => SMSCRU_SMSHandlerMixin.send env (fun o => _log o) self
  | SMSTRAFFIC_SMSHandlerMixin_cls => SMSTRAFFIC_SMSHandlerMixin.send env (fun o => _log o) self
  end.

(** The part of the constructor chain that follows the logger mixin:
    [SMSCRU_SMSHandlerMixin] defines no [__init__], so the call falls through
    to [BaseSMSHandler]'s. *)
Definition handler_init (env : Env) (cls : Class) : dict -> M Obj :=
  match handler_base cls with
  | SMSCRU_SMSHandlerMixin_cls => BaseSMSHandler.__init__ cls
  | SMSTRAFFIC_SMSHandlerMixin_cls =>
      SMSTRAFFIC_SMSHandlerMixin.__init__ env (BaseSMSHandler.__init__ cls)
  end.

(** [cls(kw=..., ...)]: the first [__init__] of the resolution order is the
    logger mixin's. *)
Definition instantiate (env : Env) (cls : Class) : dict -> M Obj :=
  match logger_base cls with
  | SimpleLoggingMixin_cls => SimpleLoggingMixin.__init__ (handler_init env cls)
  | SQLiteLoggingMixin_cls => SQLiteLoggingMixin.__init__ (handler_init env cls)
  end.

(** ** The factory *)

Definition mixin_name (h : handler_mixin) : string :=
  match h with
  | SMSCRU_SMSHandlerMixin_cls => "SMSCRU_SMSHandlerMixin"
  | SMSTRAFFIC_SMSHandlerMixin_cls => "SMSTRAFFIC_SMSHandlerMixin"
  end.

(** The registry [handlers] of [get_handler]. *)
Definition handlers : list (string * (handler_mixin * dict)) :=
  [("smsr.ru", (SMSCRU_SMSHandlerMixin_cls,
                [("login", PStr "login"); ("password", PStr "pass")]));
   ("smstraffic.ru", (SMSTRAFFIC_SMSHandlerMixin_cls,
                      [("login", PStr "login"); ("password", PStr "pass")]))].

(** The registry [loggers] of [get_handler]. *)
Definition loggers : list (string * logger_mixin) :=
  [("simple", SimpleLoggingMixin_cls);
   ("sqlite", SQLiteLoggingMixin_cls)].

Fixpoint registry_get {A} (l : list (string * A)) (k : string) : option A :=
  match l with
  | [] => None
  | (k', a) :: l' => if String.eqb k' k then Some a else registry_get l' k
  end.

(** [get_handler(handler_name, logger_name, handler_data)]; the caller writes
    the defaults out: [logger_name="simple"], [handler_data=None]. *)
Definition get_handler (env : Env) (handler_name logger_name : string)
           (handler_data : option dict) : M Obj :=
  match registry_get handlers handler_name, registry_get loggers logger_name with
  | Some (handler, auth_data), Some lg =>
      let name := mixin_name handler in
      let class_name := substring 0 (String.length name - String.length "Mixin") name in
      let cls := mkClass class_name lg handler in
      let initial_data := dict_update [] auth_data in
      let handler_data :=
        match handler_data with
        | None =>
            if String.eqb logger_name "sqlite"
            then [("db_uri", PStr "file:/tmp/testdb.sqlite?mode=rw")]
            else []
        | Some d => d
        end in
      let initial_data := dict_update initial_data handler_data in
      instantiate env cls initial_data
  | _, _ => raise (ValueError "Invalid handler_name or logger_name")
  end.

(** ** Observations on a run *)

(** The events a computation added to the trace of [w], given the world [w']
    it ended in. *)
Definition new_events (w w' : World) : list Event :=
  skipn (List.length (trace w)) (trace w').

Definition request_of (e : Event) : option Request :=
  match e with EvRequest r => Some r | _ => None end.

Fixpoint requests_in (l : list Event) : list Request :=
  match l with
  | [] => []
  | e :: l' =>
      match request_of e with
      | Some r => r :: requests_in l'
      | None => requests_in l'
      end
  end.

(** The requests a computation sent to the gateway. *)
Definition sent_requests (w w' : World) : list Request :=
  requests_in (new_events w w').

Definition after_request (w : World) (req : Request) : World :=
  mkWorld (trace w ++ [EvRequest req]) (dbs w).

(** ** Fixtures: gateways, stores and handlers to run the model on *)

Definition world0 : World := mkWorld [] [].

(** A gateway that answers every request with the same status and whose
    bodies all decode to [body]. *)
Definition env_const (code : Z) (body : option pyval) : Env :=
  mkEnv (fun _ _ => mkResponse code "") (fun _ => body) (fun _ => "{}").

(** A gateway whose auth endpoint hands out the token ["a"] and whose send
    endpoints answer with status [code] and an outcome [body]. *)
Definition env_auth (code : Z) (body : option pyval) : Env :=
  mkEnv (fun _ req =>
           if String.eqb (req_url req) SMSTRAFFIC_SMSHandlerMixin.auth_url
           then mkResponse 200 "auth" else mkResponse code "outcome")
        (fun s => if String.eqb s "auth"
                  then Some (PDict [("token", PStr "a")]) else body)
        (fun _ => "{}").

Definition default_db_uri : string := "file:/tmp/testdb.sqlite?mode=rw".

(** A world in which the default store exists, with its table and no rows. *)
Definition world_db : World :=
  mkWorld [] [(default_db_uri, mkStore true [] [])].

Definition smsc_simple : Obj :=
  mkObj (mkClass "SMSCRU_SMSHandler" SimpleLoggingMixin_cls SMSCRU_SMSHandlerMixin_cls)
        (PStr "login") (PStr "pass") PNone None (Some "sms") None.

Definition smstraffic_simple : Obj :=
  mkObj (mkClass "SMSTRAFFIC_SMSHandler" SimpleLoggingMixin_cls
                 SMSTRAFFIC_SMSHandlerMixin_cls)
        (PStr "login") (PStr "pass") PNone (Some (PStr "a")) (Some "sms") None.

Definition smsc_sqlite : Obj :=
  mkObj (mkClass "SMSCRU_SMSHandler" SQLiteLoggingMixin_cls SMSCRU_SMSHandlerMixin_cls)
        (PStr "login") (PStr "pass") PNone None None (Some default_db_uri).

(** The provider's own credentials are what the request carries: [login] and
    [psw] for smsc.ru, [token] for smstraffic.ru. *)
Definition credentials_sent (self : Obj) (req : Request) : Prop :=
  match handler_base (obj_class self) with
  | SMSCRU_SMSHandlerMixin_cls =>
      dict_lookup (req_payload req) "login" = Some (login self)
      /\ dict_lookup (req_payload req) "psw" = Some (password self)
  | SMSTRAFFIC_SMSHandlerMixin_cls =>
      dict_lookup (req_payload req) "token" = token self
  end.

Definition ok_outcome : pyval :=
  PDict [("status", PStr "ok"); ("phone", PStr "79149009900")].

Definition error_outcome : pyval :=
  PDict [("status", PStr "error"); ("phone", PStr "79149009900");
         ("error_code", PInt 3500); ("error_msg", PStr "description")].

(** The events by which a logger mixin's constructor sets up what [_log]
    writes to: the log stream, or the cursor of the store. *)
Definition is_logger_setup (e : Event) : bool :=
  match e with
  | EvGetLogger _ | EvConnect _ => true
  | _ => false
  end.

(** Every request in [evs] comes after a logger setup ([ready] tells whether
    one has been seen). *)
Fixpoint setup_before_requests (ready : bool) (evs : list Event) : bool :=
  match evs with
  | [] => true
  | EvRequest _ :: l => ready && setup_before_requests ready l
  | e :: l => setup_before_requests (ready || is_logger_setup e) l
  end.

(** Every request in [evs] comes before any logger setup. *)
Fixpoint requests_before_setup (ready : bool) (evs : list Event) : bool :=
  match evs with
  | [] => true
  | EvRequest _ :: l => negb ready && requests_before_setup ready l
  | e :: l => requests_before_setup (ready || is_logger_setup e) l
  end.

Definition auth_request (l p : pyval) : Request :=
  mkRequest POST SMSTRAFFIC_SMSHandlerMixin.auth_url [("login", l); ("pass", p)].

Definition missing_db_uri : exn :=
  TypeError "__init__() missing 1 required positional argument: 'db_uri'".

(** The message of the [ValueError] for a missing status. *)
Definition status_missing_msg : string :=
  "Could not find " ++ dquote ++ "status" ++ dquote ++ " field".

(** The request that [SMSCRU_SMSHandlerMixin.send] builds. *)
Definition smsc_request (self : Obj) (user_data : dict) : Request :=
  mkRequest GET SMSCRU_SMSHandlerMixin.request_url
    (dict_update [("login", login self); ("psw", password self)] user_data).

(** The request that [SMSTRAFFIC_SMSHandlerMixin.send] builds with the token
    [t]. *)
Definition smstraffic_request (t : pyval) (user_data : dict) : Request :=
  mkRequest POST SMSTRAFFIC_SMSHandlerMixin.request_url
    (dict_update [("token", t)] user_data).

(** The outcome that both [send] methods hand to [_log] when the status of the
    response is not 200. *)
Definition failure_outcome (env : Env) (user_data : dict) : pyval :=
  PDict [("status", PStr "error");
         ("phone", dict_get user_data "phone" (PStr "-"));
         ("error_code", PNone);
         ("error_msg", PStr ("data: " ++ format_dict env user_data))].

(** [isinstance(v, dict)]. *)
Definition is_dict (v : pyval) : bool :=
  match v with PDict _ => true | _ => false end.

(** The keyword arguments [BaseSMSHandler.__init__] accepts. *)
Definition base_keyword (k : string) : bool :=
  existsb (String.eqb k) ["login"; "password"; "sender"].



(** ** The model on the cases of [tests/test_handlers.py] *)

Example test_invalid_handler_name :
  fst (get_handler (env_const 200 None) "a" "simple" None world0)
  = inl (ValueError "Invalid handler_name or logger_name").
Proof. reflexivity. Qed.

Example test_invalid_logger_name :
  fst (get_handler (env_const 200 None) "smsr.ru" "a" None world0)
  = inl (ValueError "Invalid handler_name or logger_name").
Proof. reflexivity. Qed.

Example test_create_handler_with_simple_logger :
  get_handler (env_const 200 None) "smsr.ru" "simple" None world0
  = (inr smsc_simple, mkWorld [EvGetLogger "sms"] []).
Proof. reflexivity. Qed.

Example test_create_handler_with_db_logger :
  get_handler (env_const 200 None) "smsr.ru" "sqlite" None world_db
  = (inr smsc_sqlite, mkWorld [EvConnect default_db_uri] (dbs world_db)).
Proof. reflexivity. Qed.

Example test_init_with_token :
  fst (get_handler (env_auth 200 None) "smstraffic.ru" "simple" None world0)
  = inr smstraffic_simple.
Proof. reflexivity. Qed.

Example test_init_with_invalid_HTTP_code :
  fst (get_handler (env_const 0 (Some (PDict [("token", PStr "a")])))
                   "smstraffic.ru" "simple" None world0)
  = inl (RuntimeError "Invalid response status code: 0 != 200").
Proof. reflexivity. Qed.

Example test_init_with_response_without_token :
  fst (get_handler (env_const 200 (Some (PDict []))) "smstraffic.ru" "simple" None world0)
  = inl (RuntimeError "Response from server does not contain token").
Proof. reflexivity. Qed.

Example test_send_invalid_HTTP_code_empty_user_data :
  send (env_const 0 None) smsc_simple [] world0
  = (inr tt,
     mkWorld [EvRequest (mkRequest GET SMSCRU_SMSHandlerMixin.request_url
                                   [("login", PStr "login"); ("psw", PStr "pass")]);
              EvInfo "status: ERROR, phone: %s, message: %s"
                     [PStr "-"; PStr "data: {}"]] []).
Proof. reflexivity. Qed.

Example test_log_ok_response_sqlite :
  dbs (snd (_log smsc_sqlite
                 (PDict [("status", PStr "ok"); ("phone", PStr "79149009900")])
                 world_db))
  = [(default_db_uri, mkStore true [mkRow 1 (PStr "79149009900") PNone PNone] [])].
Proof. reflexivity. Qed.

Example test_log_error_response_sqlite :
  dbs (snd (_log smsc_sqlite
                 (PDict [("status", PStr "error"); ("phone", PStr "79149009900");
                         ("error_code", PInt 3500); ("error_msg", PStr "description")])
                 world_db))
  = [(default_db_uri,
      mkStore true [mkRow 0 (PStr "79149009900") (PInt 3500) (PStr "description")] [])].
Proof. reflexivity. Qed.

Example test_log_status_None :
  fst (_log smsc_simple (PDict [("status", PNone)]) world0)
  = inl (ValueError ("Could not find " ++ dquote ++ "status" ++ dquote ++ " field")).
Proof. reflexivity. Qed.

(** ** Dictionaries *)

Section DictFacts.

Lemma dict_lookup_set_same (d : dict) (k : string) (v : pyval) :
  dict_lookup (dict_set d k v) k = Some v.
Proof.
  induction d as [|[k' v'] d IH]; simpl.
  - now rewrite String.eqb_refl.
  - destruct (String.eqb k' k) eqn:E; simpl; rewrite E; auto.
Qed.

Lemma dict_lookup_set_other (d : dict) (k k' : string) (v : pyval) :
  k <> k' -> dict_lookup (dict_set d k' v) k = dict_lookup d k.
Proof.
  intros Hne. induction d as [|[k0 v0] d IH]; simpl.
  - destruct (String.eqb k' k) eqn:E; auto.
    apply String.eqb_eq in E. congruence.
  - destruct (String.eqb k0 k') eqn:E; simpl.
    + apply String.eqb_eq in E. subst k0.
      destruct (String.eqb k' k) eqn:E'; auto.
      apply String.eqb_eq in E'. congruence.
    + destruct (String.eqb k0 k); auto.
Qed.

Lemma dict_lookup_absent (d : dict) (k : string) :
  ~ In k (map fst d) -> dict_lookup d k = None.
Proof.
  induction d as [|[k' v'] d IH]; simpl; intros Hn; auto.
  destruct (String.eqb k' k) eqn:E.
  - apply String.eqb_eq in E. tauto.
  - apply IH. tauto.
Qed.

(** A key the update does not mention keeps its value. *)
Lemma dict_lookup_update_absent (other d : dict) (k : string) :
  dict_lookup other k = None ->
  dict_lookup (dict_update d other) k = dict_lookup d k.
Proof.
  unfold dict_update. revert d.
  induction other as [|[k' v'] other IH]; simpl; intros d Hk; auto.
  destruct (String.eqb k' k) eqn:E; [discriminate|].
  rewrite IH by assumption.
  apply dict_lookup_set_other.
  intros ->. now rewrite String.eqb_refl in E.
Qed.

(** A key the update mentions takes the update's value. *)
Lemma dict_lookup_update_present (other d : dict) (k : string) (v : pyval) :
  dict_wf other ->
  dict_lookup other k = Some v ->
  dict_lookup (dict_update d other) k = Some v.
Proof.
  unfold dict_wf. revert d.
  induction other as [|[k' v'] other IH]; simpl; intros d Hwf Hk; [discriminate|].
  inversion Hwf as [|? ? Hnotin Hwf']; subst.
  destruct (String.eqb k' k) eqn:E.
  - apply String.eqb_eq in E. subst k'. injection Hk as ->.
    change (dict_lookup (dict_update (dict_set d k v) other) k = Some v).
    rewrite dict_lookup_update_absent by now apply dict_lookup_absent.
    apply dict_lookup_set_same.
  - now apply IH.
Qed.

End DictFacts.

(** ** Running computations *)

Lemma bind_ok {A B} (m : M A) (k : A -> M B) (w w' : World) (a : A) :
  m w = (inr a, w') -> bind m k w = k a w'.
Proof. unfold bind. now intros ->. Qed.

Lemma bind_err {A B} (m : M A) (k : A -> M B) (w w' : World) (e : exn) :
  m w = (inl e, w') -> bind m k w = (inl e, w').
Proof. unfold bind. now intros ->. Qed.

Lemma new_events_app (w : World) (evs : list Event) (d : list (string * Store)) :
  new_events w (mkWorld (trace w ++ evs) d) = evs.
Proof.
  unfold new_events. simpl.
  rewrite skipn_app, skipn_all, Nat.sub_diag. reflexivity.
Qed.

(** Neither logger talks to the gateway, and both only add to the trace. *)
Lemma SimpleLoggingMixin_log_trace (self : Obj) (result : pyval) (w : World) :
  exists evs,
    trace (snd (SimpleLoggingMixin._log self result w)) = (trace w ++ evs)%list
    /\ requests_in evs = []
    /\ dbs (snd (SimpleLoggingMixin._log self result w)) = dbs w.
Proof.
  unfold SimpleLoggingMixin._log, py_get, py_getitem, getattr, logger_info, emit,
    bind, ret, raise.
  destruct result; simpl; try (exists []; rewrite app_nil_r; now auto).
  destruct (is_None _); simpl; [exists []; rewrite app_nil_r; now auto|].
  destruct (eq_str _ "ok"); simpl.
  { destruct (logger self); simpl; [|exists []; rewrite app_nil_r; now auto].
    destruct (dict_lookup d "phone"); simpl;
      [eexists; split; [reflexivity|now auto] | exists []; rewrite app_nil_r; now auto]. }
  destruct (eq_str _ "error"); simpl; [|exists []; rewrite app_nil_r; now auto].
  destruct (logger self); simpl; [|exists []; rewrite app_nil_r; now auto].
  destruct (dict_lookup d "phone"); simpl; [|exists []; rewrite app_nil_r; now auto].
  destruct (dict_lookup d "error_msg"); simpl;
    [eexists; split; [reflexivity|now auto] | exists []; rewrite app_nil_r; now auto].
Qed.

Lemma cursor_execute_insert_trace (cur : string) (row : Row) (w : World) :
  trace (snd (cursor_execute_insert cur row w)) = trace w.
Proof.
  unfold cursor_execute_insert.
  destruct (store_lookup _ _) as [s|]; [|reflexivity].
  destruct (negb (has_table s)); [reflexivity|].
  destruct (first_error _); [reflexivity|].
  destruct (negb _); [reflexivity|].
  destruct (is_None _); reflexivity.
Qed.

Lemma connection_commit_trace (cur : string) (w : World) :
  trace (snd (connection_commit cur w)) = trace w.
Proof.
  unfold connection_commit. destruct (store_lookup _ _); reflexivity.
Qed.

Lemma insert_commit_trace (cur : string) (row : Row) (w : World) :
  trace (snd ((cursor_execute_insert cur row ;;; connection_commit cur) w)) = trace w.
Proof.
  unfold bind.
  pose proof (cursor_execute_insert_trace cur row w) as H.
  destruct (cursor_execute_insert cur row w) as [[e|[]] w1]; simpl in *; auto.
  now rewrite connection_commit_trace.
Qed.

Lemma SQLiteLoggingMixin_log_trace (self : Obj) (response : pyval) (w : World) :
  trace (snd (SQLiteLoggingMixin._log self response w)) = trace w.
Proof.
  unfold SQLiteLoggingMixin._log, py_get, py_getitem, getattr.
  destruct response; try reflexivity.
  unfold bind at 1. unfold ret at 1.
  destruct (is_None _); [reflexivity|].
  destruct (eq_str _ "ok").
  { destruct (c self); [|reflexivity].
    unfold bind at 1. unfold ret at 1.
    destruct (dict_lookup d "phone"); [|reflexivity].
    unfold bind at 1. unfold ret at 1. apply insert_commit_trace. }
  destruct (eq_str _ "error"); [|reflexivity].
  destruct (c self); [|reflexivity].
  unfold bind at 1. unfold ret at 1.
  destruct (dict_lookup d "phone"); [|reflexivity].
  unfold bind at 1. unfold ret at 1.
  destruct (dict_lookup d "error_code"); [|reflexivity].
  unfold bind at 1. unfold ret at 1.
  destruct (dict_lookup d "error_msg"); [|reflexivity].
  unfold bind at 1. unfold ret at 1. apply insert_commit_trace.
Qed.

Lemma log_no_requests (self : Obj) (result : pyval) (w : World) :
  exists evs,
    trace (snd (_log self result w)) = (trace w ++ evs)%list
    /\ requests_in evs = [].
Proof.
  unfold _log. destruct (logger_base _).
  - destruct (SimpleLoggingMixin_log_trace self result w) as (evs & H1 & H2 & _).
    now exists evs.
  - exists []. rewrite app_nil_r. split; [apply SQLiteLoggingMixin_log_trace|reflexivity].
Qed.

Lemma requests_in_app (a b : list Event) :
  requests_in (a ++ b) = (requests_in a ++ requests_in b)%list.
Proof.
  induction a as [|e a IH]; simpl; auto.
  destruct (request_of e); simpl; now rewrite IH.
Qed.

Lemma sent_requests_one (w w' : World) (req : Request) (evs : list Event) :
  trace w' = (trace w ++ EvRequest req :: evs)%list ->
  requests_in evs = [] ->
  sent_requests w w' = [req].
Proof.
  intros Ht Hn. unfold sent_requests, new_events. rewrite Ht.
  rewrite skipn_app, skipn_all, Nat.sub_diag. simpl. now rewrite Hn.
Qed.

(** What follows the request in both [send] methods adds no request. *)
Lemma after_response_trace (env : Env) (self : Obj) (failure : pyval)
      (r : Response) (w : World) :
  exists evs,
    trace (snd ((if negb (status_code r =? 200)%Z
                 then _log self failure
                 else response <- loads env (text r) ;; _log self response) w))
    = (trace w ++ evs)%list
    /\ requests_in evs = [].
Proof.
  destruct (negb _).
  - apply log_no_requests.
  - unfold loads. destruct (json_loads env (text r)) as [v|].
    + unfold bind, ret. apply log_no_requests.
    + exists []. now rewrite app_nil_r.
Qed.

Lemma SMSCRU_send_trace (env : Env) (self : Obj) (user_data : dict) (w : World) :
  exists evs,
    trace (snd (SMSCRU_SMSHandlerMixin.send env (fun o => _log o) self user_data w))
    = (trace w
         ++ EvRequest (mkRequest GET SMSCRU_SMSHandlerMixin.request_url
                         (dict_update [("login", login self); ("psw", password self)]
                                      user_data))
         :: evs)%list
    /\ requests_in evs = [].
Proof.
  unfold SMSCRU_SMSHandlerMixin.send, requests_get.
  unfold bind at 1.
  match goal with
  | |- context [if negb (status_code ?r =? 200)%Z then _log self ?f else _] =>
      destruct (after_response_trace env self f r
                  (after_request w (mkRequest GET SMSCRU_SMSHandlerMixin.request_url
                     (dict_update [("login", login self); ("psw", password self)]
                                  user_data))))
        as (evs & Ht & Hn)
  end.
  exists evs. split; [|exact Hn].
  unfold after_request in Ht. simpl in Ht. rewrite <- app_assoc in Ht. exact Ht.
Qed.

Lemma SMSTRAFFIC_send_trace (env : Env) (self : Obj) (t : pyval)
      (user_data : dict) (w : World) :
  token self = Some t ->
  exists evs,
    trace (snd (SMSTRAFFIC_SMSHandlerMixin.send env (fun o => _log o) self user_data w))
    = (trace w
         ++ EvRequest (mkRequest POST SMSTRAFFIC_SMSHandlerMixin.request_url
                         (dict_update [("token", t)] user_data))
         :: evs)%list
    /\ requests_in evs = [].
Proof.
  intros Htok.
  unfold SMSTRAFFIC_SMSHandlerMixin.send, requests_post. rewrite Htok.
  unfold getattr. unfold bind at 1. unfold ret at 1. unfold bind at 1.
  match goal with
  | |- context [if negb (status_code ?r =? 200)%Z then _log self ?f else _] =>
      destruct (after_response_trace env self f r
                  (after_request w (mkRequest POST SMSTRAFFIC_SMSHandlerMixin.request_url
                     (dict_update [("token", t)] user_data))))
        as (evs & Ht & Hn)
  end.
  exists evs. split; [|exact Hn].
  unfold after_request in Ht. simpl in Ht. rewrite <- app_assoc in Ht. exact Ht.
Qed.

(** ** Properties of the composition *)

(** C1, as the specification states it, fails: [send] builds the parameters
    from the credentials and then updates them with [user_data], so a
    [user_data] with the key [login] (or [token]) replaces the handler's own
    value in the request that is sent. *)
Lemma send_user_data_overrides_credentials :
  let req_a := mkRequest GET SMSCRU_SMSHandlerMixin.request_url
                 [("login", PStr "mallory"); ("psw", PStr "pass")] in
  let req_b := mkRequest POST SMSTRAFFIC_SMSHandlerMixin.request_url
                 [("token", PStr "forged")] in
  sent_requests world0
    (snd (send (env_const 200 (Some ok_outcome)) smsc_simple
               [("login", PStr "mallory")] world0)) = [req_a]
  /\ ~ credentials_sent smsc_simple req_a
  /\ sent_requests world0
       (snd (send (env_const 200 (Some ok_outcome)) smstraffic_simple
                  [("token", PStr "forged")] world0)) = [req_b]
  /\ ~ credentials_sent smstraffic_simple req_b.
Proof.
  cbv zeta. repeat split; try reflexivity.
  - unfold credentials_sent; simpl. intros [H _]. discriminate H.
  - unfold credentials_sent; simpl. intros H. discriminate H.
Qed.

(** C1, amended: every [send] issues exactly one request, whose parameters
    are the handler's credentials updated with [user_data].  A credential key
    that [user_data] does not contain carries the handler's own value; every
    key that [user_data] contains carries the value of [user_data]. *)
Theorem send_request_parameters (env : Env) (self : Obj) (user_data : dict)
        (w : World) :
  (handler_base (obj_class self) = SMSCRU_SMSHandlerMixin_cls ->
   let params :=
     dict_update [("login", login self); ("psw", password self)] user_data in
   sent_requests w (snd (send env self user_data w))
   = [mkRequest GET SMSCRU_SMSHandlerMixin.request_url params]
   /\ (dict_lookup user_data "login" = None ->
       dict_lookup params "login" = Some (login self))
   /\ (dict_lookup user_data "psw" = None ->
       dict_lookup params "psw" = Some (password self))
   /\ (dict_wf user_data ->
       forall k v, dict_lookup user_data k = Some v ->
                   dict_lookup params k = Some v))
  /\ (handler_base (obj_class self) = SMSTRAFFIC_SMSHandlerMixin_cls ->
      forall t, token self = Some t ->
      let data := dict_update [("token", t)] user_data in
      sent_requests w (snd (send env self user_data w))
      = [mkRequest POST SMSTRAFFIC_SMSHandlerMixin.request_url data]
      /\ (dict_lookup user_data "token" = None ->
          dict_lookup data "token" = Some t)
      /\ (dict_wf user_data ->
          forall k v, dict_lookup user_data k = Some v ->
                      dict_lookup data k = Some v)).
Proof.
  split.
  - intros Hcls params. unfold send. rewrite Hcls.
    destruct (SMSCRU_send_trace env self user_data w) as (evs & Ht & Hn).
    split; [eapply sent_requests_one; eauto|].
    split; [|split].
    + intros Habs. subst params. now rewrite dict_lookup_update_absent.
    + intros Habs. subst params. now rewrite dict_lookup_update_absent.
    + intros Hwf k v Hk. now apply dict_lookup_update_present.
  - intros Hcls t Htok data. unfold send. rewrite Hcls.
    destruct (SMSTRAFFIC_send_trace env self t user_data w Htok) as (evs & Ht & Hn).
    split; [eapply sent_requests_one; eauto|].
    split.
    + intros Habs. subst data. now rewrite dict_lookup_update_absent.
    + intros Hwf k v Hk. now apply dict_lookup_update_present.
Qed.

Lemma send_request_parameters_witness :
  let user_data := [("phones", PStr "79149009900"); ("mes", PStr "hi")] in
  (sent_requests world0
     (snd (send (env_const 200 (Some ok_outcome)) smsc_simple user_data world0))
   = [mkRequest GET SMSCRU_SMSHandlerMixin.request_url
        [("login", PStr "login"); ("psw", PStr "pass");
         ("phones", PStr "79149009900"); ("mes", PStr "hi")]])
  /\ dict_lookup (dict_update [("login", login smsc_simple);
                               ("psw", password smsc_simple)] user_data) "login"
     = Some (PStr "login")
  /\ dict_lookup (dict_update [("login", login smsc_simple);
                               ("psw", password smsc_simple)] user_data) "mes"
     = Some (PStr "hi")
  /\ dict_lookup (dict_update [("token", PStr "a")] user_data) "token"
     = Some (PStr "a").
Proof.
  cbv zeta.
  assert (Hwf : dict_wf [("phones", PStr "79149009900"); ("mes", PStr "hi")]).
  { unfold dict_wf. simpl. repeat constructor; simpl; intuition discriminate. }
  pose proof (send_request_parameters (env_const 200 (Some ok_outcome)) smsc_simple
                [("phones", PStr "79149009900"); ("mes", PStr "hi")] world0)
    as [Ha _].
  pose proof (send_request_parameters (env_const 200 (Some ok_outcome))
                smstraffic_simple
                [("phones", PStr "79149009900"); ("mes", PStr "hi")] world0)
    as [_ Hb].
  specialize (Ha eq_refl). cbv zeta in Ha.
  destruct Ha as (Hreq & Hlogin & _ & Hkeys).
  specialize (Hb eq_refl (PStr "a") eq_refl). cbv zeta in Hb.
  destruct Hb as (_ & Htok & _).
  split; [exact Hreq|].
  split; [apply Hlogin; reflexivity|].
  split; [apply (Hkeys Hwf); reflexivity | apply Htok; reflexivity].
Defined.

(** *** Validation of the outcome by the loggers *)

(** Without a [status] (or with [None] for it) both loggers raise the same
    [ValueError] and leave the world as it was. *)
Lemma log_status_missing (self : Obj) (d : dict) (w : World) :
  is_None (dict_get d "status" PNone) = true ->
  SimpleLoggingMixin._log self (PDict d) w = (inl (ValueError status_missing_msg), w)
  /\ SQLiteLoggingMixin._log self (PDict d) w = (inl (ValueError status_missing_msg), w).
Proof.
  intros H.
  unfold SimpleLoggingMixin._log, SQLiteLoggingMixin._log, py_get.
  unfold bind, ret. rewrite H. split; reflexivity.
Qed.

(** With a [status] that is neither ['ok'] nor ['error'] the two loggers
    raise exceptions of different classes. *)
Lemma log_status_unexpected (self : Obj) (d : dict) (w : World) :
  is_None (dict_get d "status" PNone) = false ->
  eq_str (dict_get d "status" PNone) "ok" = false ->
  eq_str (dict_get d "status" PNone) "error" = false ->
  SimpleLoggingMixin._log self (PDict d) w
  = (inl (RuntimeError "Unexpected value of status"), w)
  /\ SQLiteLoggingMixin._log self (PDict d) w
     = (inl (ValueError "Unexpected value of status"), w).
Proof.
  intros H1 H2 H3.
  unfold SimpleLoggingMixin._log, SQLiteLoggingMixin._log, py_get.
  unfold bind, ret. rewrite H1, H2, H3. split; reflexivity.
Qed.

(** C2, at the input on which the code departs from it: for the outcome
    [{'status': 'pending'}] the text logger raises [RuntimeError], which is
    not a [ValueError], while the SQLite logger raises [ValueError]. *)
Theorem SimpleLoggingMixin_unexpected_status_RuntimeError :
  let outcome := PDict [("status", PStr "pending")] in
  SimpleLoggingMixin._log smsc_simple outcome world0
  = (inl (RuntimeError "Unexpected value of status"), world0)
  /\ is_ValueError (RuntimeError "Unexpected value of status") = false
  /\ SQLiteLoggingMixin._log smsc_sqlite outcome world_db
     = (inl (ValueError "Unexpected value of status"), world_db).
Proof.
  cbv zeta.
  destruct (log_status_unexpected smsc_simple [("status", PStr "pending")] world0)
    as [Hs _]; try reflexivity.
  destruct (log_status_unexpected smsc_sqlite [("status", PStr "pending")] world_db)
    as [_ Hq]; try reflexivity.
  repeat split; assumption.
Qed.

(** C10: the loggers validate [status] only.  An ['ok'] outcome without
    [phone], and an ['error'] outcome without [phone] or [error_msg] (for the
    SQLite logger also without [error_code]), makes [_log] raise [KeyError]
    for a key that is absent, which is not a [ValueError]; nothing is logged
    or stored. *)
Theorem log_missing_field_KeyError (self : Obj) (d : dict) (w : World) :
  (forall l, logger self = Some l ->
     (dict_lookup d "status" = Some (PStr "ok") ->
      dict_lookup d "phone" = None ->
      SimpleLoggingMixin._log self (PDict d) w = (inl (KeyError "phone"), w))
     /\ (dict_lookup d "status" = Some (PStr "error") ->
         dict_lookup d "phone" = None \/ dict_lookup d "error_msg" = None ->
         exists k, SimpleLoggingMixin._log self (PDict d) w = (inl (KeyError k), w)
                   /\ dict_lookup d k = None
                   /\ is_ValueError (KeyError k) = false))
  /\ (forall cur, c self = Some cur ->
        (dict_lookup d "status" = Some (PStr "ok") ->
         dict_lookup d "phone" = None ->
         SQLiteLoggingMixin._log self (PDict d) w = (inl (KeyError "phone"), w))
        /\ (dict_lookup d "status" = Some (PStr "error") ->
            dict_lookup d "phone" = None \/ dict_lookup d "error_code" = None
            \/ dict_lookup d "error_msg" = None ->
            exists k, SQLiteLoggingMixin._log self (PDict d) w = (inl (KeyError k), w)
                      /\ dict_lookup d k = None
                      /\ is_ValueError (KeyError k) = false)).
Proof.
  split.
  - intros l Hl. split.
    + intros Hs Hp.
      unfold SimpleLoggingMixin._log, py_get, py_getitem, dict_get, getattr.
      unfold bind, ret, raise. rewrite Hs, Hl, Hp. reflexivity.
    + intros Hs Hmiss.
      unfold SimpleLoggingMixin._log, py_get, py_getitem, dict_get, getattr.
      unfold bind, ret, raise. rewrite Hs, Hl. simpl.
      destruct (dict_lookup d "phone") as [p|] eqn:Hp.
      * destruct Hmiss as [Hm|Hm]; [discriminate|].
        rewrite Hm. exists "error_msg". auto.
      * exists "phone". auto.
  - intros cur Hc. split.
    + intros Hs Hp.
      unfold SQLiteLoggingMixin._log, py_get, py_getitem, dict_get, getattr.
      unfold bind, ret, raise. rewrite Hs, Hc, Hp. reflexivity.
    + intros Hs Hmiss.
      unfold SQLiteLoggingMixin._log, py_get, py_getitem, dict_get, getattr.
      unfold bind, ret, raise. rewrite Hs, Hc. simpl.
      destruct (dict_lookup d "phone") as [p|] eqn:Hp; [|exists "phone"; now auto].
      destruct (dict_lookup d "error_code") as [code|] eqn:Hcode;
        [|exists "error_code"; now auto].
      destruct (dict_lookup d "error_msg") as [m|] eqn:Hm;
        [|exists "error_msg"; now auto].
      destruct Hmiss as [?|[?|?]]; discriminate.
Qed.

Lemma log_missing_field_KeyError_witness :
  SimpleLoggingMixin._log smsc_simple (PDict [("status", PStr "ok")]) world0
  = (inl (KeyError "phone"), world0)
  /\ SQLiteLoggingMixin._log smsc_sqlite (PDict [("status", PStr "ok")]) world_db
     = (inl (KeyError "phone"), world_db)
  /\ (exists k,
        SimpleLoggingMixin._log smsc_simple
          (PDict [("status", PStr "error"); ("phone", PStr "1")]) world0
        = (inl (KeyError k), world0)
        /\ dict_lookup [("status", PStr "error"); ("phone", PStr "1")] k = None
        /\ is_ValueError (KeyError k) = false)
  /\ (exists k,
        SQLiteLoggingMixin._log smsc_sqlite
          (PDict [("status", PStr "error"); ("phone", PStr "1");
                  ("error_msg", PStr "m")]) world_db
        = (inl (KeyError k), world_db)
        /\ dict_lookup [("status", PStr "error"); ("phone", PStr "1");
                        ("error_msg", PStr "m")] k = None
        /\ is_ValueError (KeyError k) = false).
Proof.
  split; [|split; [|split]].
  - apply (proj1 (log_missing_field_KeyError smsc_simple
                    [("status", PStr "ok")] world0) "sms" eq_refl); reflexivity.
  - apply (proj2 (log_missing_field_KeyError smsc_sqlite
                    [("status", PStr "ok")] world_db) default_db_uri eq_refl);
      reflexivity.
  - apply (proj1 (log_missing_field_KeyError smsc_simple
                    [("status", PStr "error"); ("phone", PStr "1")] world0)
             "sms" eq_refl); [reflexivity | right; reflexivity].
  - apply (proj2 (log_missing_field_KeyError smsc_sqlite
                    [("status", PStr "error"); ("phone", PStr "1");
                     ("error_msg", PStr "m")] world_db)
             default_db_uri eq_refl); [reflexivity | right; left; reflexivity].
Defined.

(** *** The two branches of [send] *)

Lemma requests_get_run (env : Env) (url : string) (params : dict) (w : World) :
  requests_get env url params w
  = (inr (transport env (trace w) (mkRequest GET url params)),
     after_request w (mkRequest GET url params)).
Proof. reflexivity. Qed.

Lemma requests_post_run (env : Env) (url : string) (data : dict) (w : World) :
  requests_post env url data w
  = (inr (transport env (trace w) (mkRequest POST url data)),
     after_request w (mkRequest POST url data)).
Proof. reflexivity. Qed.

Lemma status_not_200 (code : Z) : code <> 200%Z -> negb (code =? 200)%Z = true.
Proof. intros H. apply negb_true_iff. now apply Z.eqb_neq. Qed.

Lemma status_200 (code : Z) : code = 200%Z -> negb (code =? 200)%Z = false.
Proof. intros ->. reflexivity. Qed.

(** The text logger accepts the outcome that [send] makes up for a failed
    transport, whatever [user_data] was. *)
Lemma SimpleLoggingMixin_log_error (self : Obj) (l : string) (d : dict)
      (p m : pyval) (w : World) :
  logger self = Some l ->
  dict_lookup d "status" = Some (PStr "error") ->
  dict_lookup d "phone" = Some p ->
  dict_lookup d "error_msg" = Some m ->
  SimpleLoggingMixin._log self (PDict d) w
  = (inr tt,
     mkWorld (trace w ++ [EvInfo "status: ERROR, phone: %s, message: %s" [p; m]])
             (dbs w)).
Proof.
  intros Hl Hs Hp Hm.
  unfold SimpleLoggingMixin._log, py_get, py_getitem, dict_get, getattr.
  unfold bind, ret. rewrite Hs, Hl, Hp, Hm. reflexivity.
Qed.

(** C4: when the status of the response is not 200, [send] of either provider
    raises nothing of its own and does nothing but call [_log], once, with
    the outcome [{'status': 'error', 'phone': user_data.get('phone', '-'),
    'error_code': None, 'error_msg': 'data: ' + str(user_data)}]; the body of
    the response plays no part.  This holds for every [_log]; with the text
    logger the call returns normally after emitting one record. *)
Theorem send_transport_failure (env : Env) (log : Obj -> pyval -> M unit)
        (self : Obj) (user_data : dict) (w : World) :
  let failure :=
    PDict [("status", PStr "error");
           ("phone", dict_get user_data "phone" (PStr "-"));
           ("error_code", PNone);
           ("error_msg", PStr ("data: " ++ format_dict env user_data))] in
  let req_a :=
    mkRequest GET SMSCRU_SMSHandlerMixin.request_url
      (dict_update [("login", login self); ("psw", password self)] user_data) in
  let req_b t :=
    mkRequest POST SMSTRAFFIC_SMSHandlerMixin.request_url
      (dict_update [("token", t)] user_data) in
  (status_code (transport env (trace w) req_a) <> 200%Z ->
   SMSCRU_SMSHandlerMixin.send env log self user_data w
   = log self failure (after_request w req_a))
  /\ (forall t, token self = Some t ->
      status_code (transport env (trace w) (req_b t)) <> 200%Z ->
      SMSTRAFFIC_SMSHandlerMixin.send env log self user_data w
      = log self failure (after_request w (req_b t)))
  /\ (forall l w1, logger_base (obj_class self) = SimpleLoggingMixin_cls ->
      logger self = Some l ->
      _log self failure w1
      = (inr tt,
         mkWorld (trace w1 ++ [EvInfo "status: ERROR, phone: %s, message: %s"
                                 [dict_get user_data "phone" (PStr "-");
                                  PStr ("data: " ++ format_dict env user_data)]])
                 (dbs w1))).
Proof.
  cbv zeta. split; [|split].
  - intros Hst.
    unfold SMSCRU_SMSHandlerMixin.send.
    erewrite bind_ok by apply requests_get_run.
    now rewrite status_not_200.
  - intros t Htok Hst.
    unfold SMSTRAFFIC_SMSHandlerMixin.send. rewrite Htok.
    unfold getattr. erewrite bind_ok by reflexivity.
    erewrite bind_ok by apply requests_post_run.
    now rewrite status_not_200.
  - intros l w1 Hcls Hl. unfold _log. rewrite Hcls.
    now apply SimpleLoggingMixin_log_error with (l := l).
Qed.

Lemma send_transport_failure_witness :
  send (env_const 0 None) smsc_simple [("phone", PStr "79149009900")] world0
  = (inr tt,
     mkWorld [EvRequest (mkRequest GET SMSCRU_SMSHandlerMixin.request_url
                           [("login", PStr "login"); ("psw", PStr "pass");
                            ("phone", PStr "79149009900")]);
              EvInfo "status: ERROR, phone: %s, message: %s"
                     [PStr "79149009900"; PStr "data: {}"]] [])
  /\ send (env_const 0 None) smstraffic_simple [] world0
     = (inr tt,
        mkWorld [EvRequest (mkRequest POST SMSTRAFFIC_SMSHandlerMixin.request_url
                              [("token", PStr "a")]);
                 EvInfo "status: ERROR, phone: %s, message: %s"
                        [PStr "-"; PStr "data: {}"]] []).
Proof.
  split.
  - destruct (send_transport_failure (env_const 0 None) (fun o => _log o) smsc_simple
                [("phone", PStr "79149009900")] world0) as (Ha & _ & Hl).
    change (send (env_const 0 None) smsc_simple)
      with (SMSCRU_SMSHandlerMixin.send (env_const 0 None) (fun o => _log o)
              smsc_simple).
    rewrite Ha by (simpl; lia).
    rewrite (Hl "sms" _ eq_refl eq_refl). reflexivity.
  - destruct (send_transport_failure (env_const 0 None) (fun o => _log o)
                smstraffic_simple [] world0) as (_ & Hb & Hl).
    change (send (env_const 0 None) smstraffic_simple)
      with (SMSTRAFFIC_SMSHandlerMixin.send (env_const 0 None) (fun o => _log o)
              smstraffic_simple).
    rewrite (Hb (PStr "a") eq_refl) by (simpl; lia).
    rewrite (Hl "sms" _ eq_refl eq_refl). reflexivity.
Defined.

(** C8: when the status is 200 and the body decodes, [send] of either
    provider does nothing but call [_log], once, with the decoded value
    itself. *)
Theorem send_passes_response_through (env : Env) (log : Obj -> pyval -> M unit)
        (self : Obj) (user_data : dict) (w : World) (outcome : pyval) :
  let req_a :=
    mkRequest GET SMSCRU_SMSHandlerMixin.request_url
      (dict_update [("login", login self); ("psw", password self)] user_data) in
  let req_b t :=
    mkRequest POST SMSTRAFFIC_SMSHandlerMixin.request_url
      (dict_update [("token", t)] user_data) in
  (status_code (transport env (trace w) req_a) = 200%Z ->
   json_loads env (text (transport env (trace w) req_a)) = Some outcome ->
   SMSCRU_SMSHandlerMixin.send env log self user_data w
   = log self outcome (after_request w req_a))
  /\ (forall t, token self = Some t ->
      status_code (transport env (trace w) (req_b t)) = 200%Z ->
      json_loads env (text (transport env (trace w) (req_b t))) = Some outcome ->
      SMSTRAFFIC_SMSHandlerMixin.send env log self user_data w
      = log self outcome (after_request w (req_b t))).
Proof.
  cbv zeta. split.
  - intros Hst Hbody.
    unfold SMSCRU_SMSHandlerMixin.send.
    erewrite bind_ok by apply requests_get_run.
    rewrite status_200 by assumption.
    unfold loads. rewrite Hbody. reflexivity.
  - intros t Htok Hst Hbody.
    unfold SMSTRAFFIC_SMSHandlerMixin.send. rewrite Htok.
    unfold getattr. erewrite bind_ok by reflexivity.
    erewrite bind_ok by apply requests_post_run.
    rewrite status_200 by assumption.
    unfold loads. rewrite Hbody. reflexivity.
Qed.

Lemma send_passes_response_through_witness :
  SMSCRU_SMSHandlerMixin.send (env_const 200 (Some ok_outcome)) (fun o => _log o)
    smsc_simple [("phone", PStr "79149009900")] world0
  = _log smsc_simple ok_outcome
      (after_request world0
         (mkRequest GET SMSCRU_SMSHandlerMixin.request_url
            [("login", PStr "login"); ("psw", PStr "pass");
             ("phone", PStr "79149009900")]))
  /\ SMSTRAFFIC_SMSHandlerMixin.send (env_const 200 (Some ok_outcome))
       (fun o => _log o) smstraffic_simple [("phone", PStr "79149009900")] world0
     = _log smstraffic_simple ok_outcome
         (after_request world0
            (mkRequest POST SMSTRAFFIC_SMSHandlerMixin.request_url
               [("token", PStr "a"); ("phone", PStr "79149009900")])).
Proof.
  split.
  - apply (proj1 (send_passes_response_through (env_const 200 (Some ok_outcome))
                    (fun o => _log o) smsc_simple [("phone", PStr "79149009900")]
                    world0 ok_outcome)); reflexivity.
  - apply (proj2 (send_passes_response_through (env_const 200 (Some ok_outcome))
                    (fun o => _log o) smstraffic_simple
                    [("phone", PStr "79149009900")] world0 ok_outcome)
             (PStr "a")); reflexivity.
Defined.

(** *** The results store *)

Lemma store_lookup_put_same (l : list (string * Store)) (uri : string) (s : Store) :
  store_lookup (store_put l uri s) uri = Some s.
Proof.
  induction l as [|[u s'] l IH]; simpl.
  - now rewrite String.eqb_refl.
  - destruct (String.eqb u uri) eqn:E; simpl; rewrite E; auto.
Qed.


Lemma store_put_put (l : list (string * Store)) (uri : string) (s s' : Store) :
  store_put (store_put l uri s) uri s' = store_put l uri s'.
Proof.
  induction l as [|[u s0] l IH]; simpl.
  - now rewrite String.eqb_refl.
  - destruct (String.eqb u uri) eqn:E; simpl; rewrite E; [reflexivity|].
    now rewrite IH.
Qed.

(** A connection that has just been opened has no open transaction. *)
Lemma sqlite3_connect_no_transaction (uri cur : string) (w w' : World) :
  sqlite3_connect uri w = (inr cur, w') ->
  cur = uri
  /\ exists s, store_lookup (dbs w') cur = Some s /\ pending s = [].
Proof.
  unfold sqlite3_connect.
  destruct (store_lookup (dbs w) uri) as [s|]; [|discriminate].
  intros [= <- <-]. split; [reflexivity|].
  eexists. simpl. split; [apply store_lookup_put_same | reflexivity].
Qed.

(** An insert that the table accepts, followed by the commit, moves the row
    and whatever the transaction held into the committed rows. *)
Lemma insert_then_commit (cur : string) (row : Row) (w : World) (s : Store) :
  store_lookup (dbs w) cur = Some s ->
  has_table s = true ->
  sqlite_adapt (phone row) = None ->
  sqlite_adapt (error_code row) = None ->
  sqlite_adapt (error_msg row) = None ->
  (success row = 0 \/ success row = 1)%Z ->
  is_None (phone row) = false ->
  (cursor_execute_insert cur row ;;; connection_commit cur) w
  = (inr tt,
     mkWorld (trace w)
       (store_put (dbs w) cur
          (mkStore (has_table s) (committed s ++ pending s ++ [row]) []))).
Proof.
  intros Hs Ht Hp Hc Hm Hsucc Hnn.
  unfold bind, cursor_execute_insert.
  rewrite Hs, Ht. simpl. rewrite Hp, Hc, Hm, Hnn.
  replace (negb ((success row =? 0)%Z || (success row =? 1)%Z)) with false
    by (destruct Hsucc as [-> | ->]; reflexivity).
  unfold connection_commit. simpl.
  rewrite store_lookup_put_same. simpl.
  now rewrite store_put_put.
Qed.

(** C7: for an outcome with a [phone] the SQLite logger inserts exactly one
    row and commits it before it returns: [(1, phone, NULL, NULL)] for status
    ['ok'], [(0, phone, error_code, error_msg)] for status ['error'].  The
    table exists, no transaction is open, and the code and the message are
    values that sqlite3 binds. *)
Theorem SQLiteLoggingMixin_log_inserts_row (self : Obj) (cur : string) (d : dict)
        (w : World) (s : Store) (p : string) :
  c self = Some cur ->
  store_lookup (dbs w) cur = Some s ->
  has_table s = true ->
  pending s = [] ->
  dict_lookup d "phone" = Some (PStr p) ->
  (dict_lookup d "status" = Some (PStr "ok") ->
   SQLiteLoggingMixin._log self (PDict d) w
   = (inr tt,
      mkWorld (trace w)
        (store_put (dbs w) cur
           (mkStore true (committed s ++ [mkRow 1 (PStr p) PNone PNone]) []))))
  /\ (forall code msg,
      dict_lookup d "status" = Some (PStr "error") ->
      dict_lookup d "error_code" = Some code ->
      dict_lookup d "error_msg" = Some msg ->
      sqlite_adapt code = None ->
      sqlite_adapt msg = None ->
      SQLiteLoggingMixin._log self (PDict d) w
      = (inr tt,
         mkWorld (trace w)
           (store_put (dbs w) cur
              (mkStore true (committed s ++ [mkRow 0 (PStr p) code msg]) [])))).
Proof.
  intros Hc Hs Ht Hpend Hp. split.
  - intros Hst.
    unfold SQLiteLoggingMixin._log, py_get, py_getitem, dict_get, getattr.
    rewrite Hst, Hc, Hp.
    cbn [bind ret is_None eq_str String.eqb Ascii.eqb Bool.eqb].
    erewrite insert_then_commit by (eauto; reflexivity).
    now rewrite Ht, Hpend.
  - intros code msg Hst Hcode Hmsg Hac Ham.
    unfold SQLiteLoggingMixin._log, py_get, py_getitem, dict_get, getattr.
    rewrite Hst, Hc, Hp, Hcode, Hmsg.
    cbn [bind ret is_None eq_str String.eqb Ascii.eqb Bool.eqb].
    erewrite insert_then_commit by (eauto; reflexivity).
    now rewrite Ht, Hpend.
Qed.

Lemma SQLiteLoggingMixin_log_inserts_row_witness :
  SQLiteLoggingMixin._log smsc_sqlite ok_outcome world_db
  = (inr tt,
     mkWorld []
       [(default_db_uri, mkStore true [mkRow 1 (PStr "79149009900") PNone PNone] [])])
  /\ SQLiteLoggingMixin._log smsc_sqlite error_outcome world_db
     = (inr tt,
        mkWorld []
          [(default_db_uri,
            mkStore true
              [mkRow 0 (PStr "79149009900") (PInt 3500) (PStr "description")] [])]).
Proof.
  split.
  - apply (proj1 (SQLiteLoggingMixin_log_inserts_row smsc_sqlite default_db_uri
                    [("status", PStr "ok"); ("phone", PStr "79149009900")]
                    world_db (mkStore true [] []) "79149009900"
                    eq_refl eq_refl eq_refl eq_refl eq_refl)).
    reflexivity.
  - apply (proj2 (SQLiteLoggingMixin_log_inserts_row smsc_sqlite default_db_uri
                    [("status", PStr "error"); ("phone", PStr "79149009900");
                     ("error_code", PInt 3500); ("error_msg", PStr "description")]
                    world_db (mkStore true [] []) "79149009900"
                    eq_refl eq_refl eq_refl eq_refl eq_refl)
             (PInt 3500) (PStr "description")); reflexivity.
Defined.

(** *** The factory *)

(** C9: a [handler_name] or a [logger_name] that its registry does not know
    makes [get_handler] raise [ValueError]; no handler is returned, and the
    world is untouched: no request was sent, no store was opened. *)
Theorem get_handler_unknown_key (env : Env) (handler_name logger_name : string)
        (handler_data : option dict) (w : World) :
  registry_get handlers handler_name = None
  \/ registry_get loggers logger_name = None ->
  get_handler env handler_name logger_name handler_data w
  = (inl (ValueError "Invalid handler_name or logger_name"), w).
Proof.
  intros H. unfold get_handler.
  destruct (registry_get handlers handler_name) as [[h a]|];
    destruct (registry_get loggers logger_name); try reflexivity;
    destruct H; discriminate.
Qed.

Lemma get_handler_unknown_key_witness :
  get_handler (env_auth 200 None) "smsc.ru" "simple" None world_db
  = (inl (ValueError "Invalid handler_name or logger_name"), world_db)
  /\ get_handler (env_auth 200 None) "smstraffic.ru" "text" None world_db
     = (inl (ValueError "Invalid handler_name or logger_name"), world_db).
Proof.
  split.
  - apply get_handler_unknown_key. left. reflexivity.
  - apply get_handler_unknown_key. right. reflexivity.
Defined.

(** [BaseSMSHandler.__init__] only writes attributes. *)
Lemma BaseSMSHandler_init_pure (cls : Class) (kwargs : dict) (w : World) :
  snd (BaseSMSHandler.__init__ cls kwargs w) = w.
Proof.
  unfold BaseSMSHandler.__init__.
  destruct (existsb _ kwargs); [reflexivity|].
  destruct (dict_lookup kwargs "login"); [|reflexivity].
  destruct (dict_lookup kwargs "password"); reflexivity.
Qed.

Lemma BaseSMSHandler_init_run (cls : Class) (kwargs : dict) (w : World) :
  BaseSMSHandler.__init__ cls kwargs w
  = (fst (BaseSMSHandler.__init__ cls kwargs w), w).
Proof.
  rewrite <- (BaseSMSHandler_init_pure cls kwargs w) at 3.
  now destruct (BaseSMSHandler.__init__ cls kwargs w).
Qed.

(** The instance that [BaseSMSHandler.__init__] leaves has no token, no
    logger and no cursor yet. *)
Lemma BaseSMSHandler_init_attrs (cls : Class) (kwargs : dict) (w : World) (self : Obj) :
  fst (BaseSMSHandler.__init__ cls kwargs w) = inr self ->
  token self = None /\ logger self = None /\ c self = None.
Proof.
  unfold BaseSMSHandler.__init__.
  destruct (existsb _ kwargs); [discriminate|].
  destruct (dict_lookup kwargs "login"); [|discriminate].
  destruct (dict_lookup kwargs "password"); [|discriminate].
  simpl. intros [= <-]. auto.
Qed.

(** [_get_token] sends exactly one request, the auth POST. *)
Lemma get_token_world (env : Env) (self : Obj) (w : World) :
  snd (SMSTRAFFIC_SMSHandlerMixin._get_token env self w)
  = after_request w
      (mkRequest POST SMSTRAFFIC_SMSHandlerMixin.auth_url
         [("login", login self); ("pass", password self)]).
Proof.
  unfold SMSTRAFFIC_SMSHandlerMixin._get_token.
  erewrite bind_ok by apply requests_post_run.
  destruct (negb _); [reflexivity|].
  unfold loads. destruct (json_loads env _) as [v|]; [|reflexivity].
  unfold bind at 1. unfold ret at 1.
  unfold py_get. destruct v; try reflexivity.
  unfold bind, ret. destruct (is_None _); reflexivity.
Qed.

(** The provider's constructor, once [BaseSMSHandler.__init__] has accepted
    the arguments: it sends the auth request and nothing else, and what it
    returns is the instance with the token added. *)
Lemma SMSTRAFFIC_constructor_world (env : Env) (cls : Class) (kwargs : dict)
      (w : World) (self0 : Obj) :
  fst (BaseSMSHandler.__init__ cls kwargs w) = inr self0 ->
  snd (SMSTRAFFIC_SMSHandlerMixin.__init__ env (BaseSMSHandler.__init__ cls) kwargs w)
  = after_request w
      (mkRequest POST SMSTRAFFIC_SMSHandlerMixin.auth_url
         [("login", login self0); ("pass", password self0)])
  /\ forall self,
       fst (SMSTRAFFIC_SMSHandlerMixin.__init__ env (BaseSMSHandler.__init__ cls)
              kwargs w) = inr self ->
       exists tok, self = set_token self0 tok.
Proof.
  intros Hbase.
  assert (Hrun : BaseSMSHandler.__init__ cls kwargs w = (inr self0, w)).
  { rewrite BaseSMSHandler_init_run, Hbase. reflexivity. }
  unfold SMSTRAFFIC_SMSHandlerMixin.__init__.
  erewrite bind_ok by exact Hrun.
  unfold bind, ret.
  pose proof (get_token_world env self0 w) as Hw.
  destruct (SMSTRAFFIC_SMSHandlerMixin._get_token env self0 w) as [[e|tok] w1];
    simpl in *; split; auto; try discriminate.
  intros self [= <-]. now exists tok.
Qed.

(** C6, as stated, fails at the body [{"token": null}]: the mapping has a
    [token] field and the status is 200, yet [_get_token] takes the [None] it
    reads for a missing token and the construction raises [RuntimeError]. *)
Lemma null_token_fails_construction :
  let env := env_const 200 (Some (PDict [("token", PNone)])) in
  let req := mkRequest POST SMSTRAFFIC_SMSHandlerMixin.auth_url
               [("login", PStr "login"); ("pass", PStr "pass")] in
  status_code (transport env [] req) = 200%Z
  /\ json_loads env (text (transport env [] req)) = Some (PDict [("token", PNone)])
  /\ dict_lookup [("token", PNone)] "token" = Some PNone
  /\ get_handler env "smstraffic.ru" "simple" None world0
     = (inl (RuntimeError "Response from server does not contain token"),
        after_request world0 req).
Proof. cbv zeta. repeat split. Qed.

(** C6, amended: constructing a smstraffic.ru handler sends one auth POST
    with the login and the password.  A status other than 200, or a body that
    decodes to a mapping whose [token] is absent or [None], makes the
    construction raise [RuntimeError], so that no handler comes out of the
    class either; a mapping with any other [token] has that token stored. *)
Theorem SMSTRAFFIC_init_token (env : Env) (cls : Class) (kwargs : dict)
        (w : World) (self0 : Obj) :
  fst (BaseSMSHandler.__init__ cls kwargs w) = inr self0 ->
  let req := mkRequest POST SMSTRAFFIC_SMSHandlerMixin.auth_url
               [("login", login self0); ("pass", password self0)] in
  let r := transport env (trace w) req in
  let run := SMSTRAFFIC_SMSHandlerMixin.__init__ env (BaseSMSHandler.__init__ cls)
               kwargs w in
  snd run = after_request w req
  /\ (status_code r <> 200%Z ->
      exists msg, fst run = inl (RuntimeError msg))
  /\ (forall d, status_code r = 200%Z ->
      json_loads env (text r) = Some (PDict d) ->
      dict_get d "token" PNone = PNone ->
      fst run = inl (RuntimeError "Response from server does not contain token"))
  /\ (forall d t, status_code r = 200%Z ->
      json_loads env (text r) = Some (PDict d) ->
      dict_lookup d "token" = Some t ->
      t <> PNone ->
      fst run = inr (set_token self0 t))
  /\ (handler_base cls = SMSTRAFFIC_SMSHandlerMixin_cls ->
      logger_base cls = SimpleLoggingMixin_cls ->
      forall e, fst run = inl e ->
      instantiate env cls kwargs w = (inl e, after_request w req)).
Proof.
  intros Hbase. cbv zeta.
  assert (Hrun : BaseSMSHandler.__init__ cls kwargs w = (inr self0, w)).
  { rewrite BaseSMSHandler_init_run, Hbase. reflexivity. }
  assert (Hinit :
    SMSTRAFFIC_SMSHandlerMixin.__init__ env (BaseSMSHandler.__init__ cls) kwargs w
    = (match fst (SMSTRAFFIC_SMSHandlerMixin._get_token env self0 w) with
       | inl e => inl e
       | inr tok => inr (set_token self0 tok)
       end,
       snd (SMSTRAFFIC_SMSHandlerMixin._get_token env self0 w))).
  { unfold SMSTRAFFIC_SMSHandlerMixin.__init__.
    erewrite bind_ok by exact Hrun.
    unfold bind, ret.
    destruct (SMSTRAFFIC_SMSHandlerMixin._get_token env self0 w) as [[e|tok] w1];
      reflexivity. }
  rewrite Hinit. simpl fst. simpl snd.
  split; [apply get_token_world|].
  split; [|split; [|split]].
  - intros Hst. unfold SMSTRAFFIC_SMSHandlerMixin._get_token.
    erewrite bind_ok by apply requests_post_run.
    rewrite status_not_200 by assumption. simpl. eauto.
  - intros d Hst Hbody Htok. unfold SMSTRAFFIC_SMSHandlerMixin._get_token.
    erewrite bind_ok by apply requests_post_run.
    rewrite status_200 by assumption.
    unfold loads. rewrite Hbody. unfold py_get, bind, ret. rewrite Htok.
    reflexivity.
  - intros d t Hst Hbody Htok Hnn. unfold SMSTRAFFIC_SMSHandlerMixin._get_token.
    erewrite bind_ok by apply requests_post_run.
    rewrite status_200 by assumption.
    unfold loads. rewrite Hbody. unfold py_get, dict_get, bind, ret. rewrite Htok.
    destruct t; try reflexivity. congruence.
  - intros Hh Hl e He.
    unfold instantiate, handler_init. rewrite Hl, Hh.
    unfold SimpleLoggingMixin.__init__.
    apply bind_err. rewrite Hinit.
    rewrite get_token_world. f_equal.
    destruct (fst (SMSTRAFFIC_SMSHandlerMixin._get_token env self0 w));
      [congruence|discriminate].
Qed.

Lemma SMSTRAFFIC_init_token_witness :
  let cls := mkClass "SMSTRAFFIC_SMSHandler" SimpleLoggingMixin_cls
                     SMSTRAFFIC_SMSHandlerMixin_cls in
  let kwargs := [("login", PStr "login"); ("password", PStr "pass")] in
  let self0 := mkObj cls (PStr "login") (PStr "pass") PNone None None None in
  (exists msg,
     fst (SMSTRAFFIC_SMSHandlerMixin.__init__ (env_const 0 None)
            (BaseSMSHandler.__init__ cls) kwargs world0)
     = inl (RuntimeError msg))
  /\ fst (SMSTRAFFIC_SMSHandlerMixin.__init__ (env_const 200 (Some (PDict [])))
            (BaseSMSHandler.__init__ cls) kwargs world0)
     = inl (RuntimeError "Response from server does not contain token")
  /\ fst (SMSTRAFFIC_SMSHandlerMixin.__init__ (env_auth 200 None)
            (BaseSMSHandler.__init__ cls) kwargs world0)
     = inr (set_token self0 (PStr "a"))
  /\ instantiate (env_const 200 (Some (PDict []))) cls kwargs world0
     = (inl (RuntimeError "Response from server does not contain token"),
        after_request world0
          (mkRequest POST SMSTRAFFIC_SMSHandlerMixin.auth_url
             [("login", PStr "login"); ("pass", PStr "pass")])).
Proof.
  cbv zeta.
  set (cls := mkClass "SMSTRAFFIC_SMSHandler" SimpleLoggingMixin_cls
                      SMSTRAFFIC_SMSHandlerMixin_cls).
  set (kwargs := [("login", PStr "login"); ("password", PStr "pass")]).
  set (self0 := mkObj cls (PStr "login") (PStr "pass") PNone None None None).
  split; [|split; [|split]].
  - destruct (SMSTRAFFIC_init_token (env_const 0 None) cls kwargs world0 self0 eq_refl)
      as (_ & H & _).
    apply H. simpl. lia.
  - destruct (SMSTRAFFIC_init_token (env_const 200 (Some (PDict []))) cls kwargs
                world0 self0 eq_refl) as (_ & _ & H & _).
    apply (H []); reflexivity.
  - destruct (SMSTRAFFIC_init_token (env_auth 200 None) cls kwargs world0 self0 eq_refl)
      as (_ & _ & _ & H & _).
    apply (H [("token", PStr "a")] (PStr "a")); try reflexivity. discriminate.
  - destruct (SMSTRAFFIC_init_token (env_const 200 (Some (PDict []))) cls kwargs
                world0 self0 eq_refl) as (_ & _ & _ & _ & H).
    apply H; reflexivity.
Defined.

(** *** The order of construction *)

Lemma new_events_same (w : World) : new_events w w = [].
Proof. unfold new_events. apply skipn_all. Qed.

Lemma new_events_after_request (w : World) (req : Request) :
  new_events w (after_request w req) = [EvRequest req].
Proof. unfold after_request. apply new_events_app. Qed.

Lemma new_events_after_request_then (w : World) (req : Request) (e : Event)
      (d : list (string * Store)) :
  new_events w (mkWorld (trace (after_request w req) ++ [e]) d) = [EvRequest req; e].
Proof.
  unfold after_request. simpl. rewrite <- app_assoc. apply new_events_app.
Qed.

(** The provider's part of the chain either fails before anything happened, or
    has sent the auth request and nothing else. *)
Lemma handler_init_smstraffic (env : Env) (cls : Class) (kwargs : dict) (w : World) :
  handler_base cls = SMSTRAFFIC_SMSHandlerMixin_cls ->
  (exists e, handler_init env cls kwargs w = (inl e, w))
  \/ (exists self0 r,
        fst (BaseSMSHandler.__init__ cls kwargs w) = inr self0
        /\ handler_init env cls kwargs w
           = (r, after_request w (auth_request (login self0) (password self0)))
        /\ forall self, r = inr self ->
             logger self = None /\ c self = None
             /\ login self = login self0 /\ password self = password self0).
Proof.
  intros Hh. unfold handler_init. rewrite Hh.
  destruct (fst (BaseSMSHandler.__init__ cls kwargs w)) as [e|self0] eqn:Hb.
  - left. exists e. unfold SMSTRAFFIC_SMSHandlerMixin.__init__.
    apply bind_err. rewrite BaseSMSHandler_init_run, Hb. reflexivity.
  - right.
    exists self0,
      (fst (SMSTRAFFIC_SMSHandlerMixin.__init__ env (BaseSMSHandler.__init__ cls)
              kwargs w)).
    split; [reflexivity|]. split.
    + destruct (SMSTRAFFIC_constructor_world env cls kwargs w self0 Hb) as [Hw _].
      unfold auth_request. rewrite <- Hw.
      now destruct (SMSTRAFFIC_SMSHandlerMixin.__init__ _ _ _ _).
    + intros self Hself.
      destruct (SMSTRAFFIC_constructor_world env cls kwargs w self0 Hb) as [_ Hr].
      destruct (Hr self Hself) as [tok ->].
      destruct (BaseSMSHandler_init_attrs cls kwargs w self0 Hb) as (_ & Hl & Hc).
      simpl. auto.
Qed.

(** What the construction of a smstraffic.ru class leaves in the trace:
    nothing, or the auth request alone, or the auth request followed by the
    logger's setup. *)
Lemma instantiate_smstraffic_events (env : Env) (cls : Class) (kwargs : dict)
      (w : World) :
  handler_base cls = SMSTRAFFIC_SMSHandlerMixin_cls ->
  let run := instantiate env cls kwargs w in
  (new_events w (snd run) = [] /\ exists e, fst run = inl e)
  \/ (exists req,
        req_url req = SMSTRAFFIC_SMSHandlerMixin.auth_url
        /\ ((new_events w (snd run) = [EvRequest req] /\ exists e, fst run = inl e)
            \/ exists setup,
                 is_logger_setup setup = true
                 /\ new_events w (snd run) = [EvRequest req; setup])).
Proof.
  intros Hh. cbv zeta. unfold instantiate.
  destruct (logger_base cls).
  - (* SimpleLoggingMixin *)
    unfold SimpleLoggingMixin.__init__.
    destruct (handler_init_smstraffic env cls kwargs w Hh)
      as [[e He] | (self0 & r & _ & Hrun & _)].
    + left. erewrite bind_err by exact He. simpl.
      split; [apply new_events_same | eauto].
    + right. exists (auth_request (login self0) (password self0)).
      split; [reflexivity|].
      destruct r as [e|self].
      * left. erewrite bind_err by exact Hrun. simpl.
        split; [apply new_events_after_request | eauto].
      * right. exists (EvGetLogger "sms"). split; [reflexivity|].
        erewrite bind_ok by exact Hrun.
        unfold getLogger, emit, bind, ret. simpl snd.
        apply new_events_after_request_then.
  - (* SQLiteLoggingMixin *)
    unfold SQLiteLoggingMixin.__init__.
    destruct (dict_lookup kwargs "db_uri") as [db_uri|].
    2:{ left. simpl. split; [apply new_events_same | eauto]. }
    destruct (handler_init_smstraffic env cls (dict_remove kwargs "db_uri") w Hh)
      as [[e He] | (self0 & r & _ & Hrun & _)].
    + left. erewrite bind_err by exact He. simpl.
      split; [apply new_events_same | eauto].
    + right. exists (auth_request (login self0) (password self0)).
      split; [reflexivity|].
      destruct r as [e|self].
      * left. erewrite bind_err by exact Hrun. simpl.
        split; [apply new_events_after_request | eauto].
      * erewrite bind_ok by exact Hrun.
        destruct db_uri;
          try (left; simpl; split; [apply new_events_after_request | now eauto]).
        right. exists (EvConnect s). split; [reflexivity|].
        unfold sqlite3_connect, bind, ret.
        destruct (store_lookup _ s); simpl snd;
          apply new_events_after_request_then.
Qed.

(** When the provider's part of the chain returns, the instance has neither a
    logger nor a cursor, and [_log] cannot yet write an outcome. *)
Lemma handler_init_attrs (env : Env) (cls : Class) (kwargs : dict) (w w1 : World)
      (self : Obj) :
  handler_init env cls kwargs w = (inr self, w1) ->
  logger self = None /\ c self = None.
Proof.
  intros H. destruct (handler_base cls) eqn:Hh.
  - unfold handler_init in H. rewrite Hh in H.
    rewrite BaseSMSHandler_init_run in H. injection H as Hf _.
    destruct (BaseSMSHandler_init_attrs cls kwargs w self Hf) as (_ & Hl & Hc).
    auto.
  - destruct (handler_init_smstraffic env cls kwargs w Hh)
      as [[e He] | (self0 & r & _ & Hrun & Hr)].
    + congruence.
    + rewrite Hrun in H. injection H as Hr' _.
      destruct (Hr self Hr') as (Hl & Hc & _). auto.
Qed.

Lemma log_before_setup (self : Obj) (p : pyval) (w : World) :
  logger self = None ->
  c self = None ->
  exists name,
    _log self (PDict [("status", PStr "ok"); ("phone", p)]) w
    = (inl (AttributeError name), w).
Proof.
  intros Hl Hc. unfold _log.
  destruct (logger_base (obj_class self)).
  - exists "logger". unfold SimpleLoggingMixin._log. rewrite Hl. reflexivity.
  - exists "c". unfold SQLiteLoggingMixin._log. rewrite Hc. reflexivity.
Qed.

(** C3, as stated, fails: the logger mixin's [__init__] is entered first, but
    it begins with [super().__init__], so the provider's constructor and its
    auth exchange run before the log stream or the cursor exists.  When the
    auth exchange fails no logger was ever set up. *)
Lemma auth_exchange_precedes_logger_setup :
  let auth := EvRequest (auth_request (PStr "login") (PStr "pass")) in
  new_events world0
    (snd (get_handler (env_auth 200 None) "smstraffic.ru" "simple" None world0))
  = [auth; EvGetLogger "sms"]
  /\ setup_before_requests false [auth; EvGetLogger "sms"] = false
  /\ new_events world_db
       (snd (get_handler (env_auth 200 None) "smstraffic.ru" "sqlite" None world_db))
     = [auth; EvConnect default_db_uri]
  /\ setup_before_requests false [auth; EvConnect default_db_uri] = false
  /\ get_handler (env_const 0 None) "smstraffic.ru" "simple" None world0
     = (inl (RuntimeError "Invalid response status code: 0 != 200"),
        mkWorld [auth] []).
Proof. cbv zeta. repeat split. Qed.

(** C3, amended: in the construction of a smstraffic.ru handler the auth
    exchange of the provider comes before the logger's setup, never after it;
    a handler that is returned was built by exactly these two steps, in this
    order.  On the instance that the provider's part of the constructor chain
    returns, [_log] is not usable yet: the attribute it writes to is
    missing. *)
Theorem provider_construction_precedes_logger_setup (env : Env)
        (logger_name : string) (handler_data : option dict) (w : World) :
  let run := get_handler env "smstraffic.ru" logger_name handler_data w in
  let evs := new_events w (snd run) in
  requests_before_setup false evs = true
  /\ (forall self, fst run = inr self ->
      exists req setup,
        evs = [EvRequest req; setup]
        /\ req_url req = SMSTRAFFIC_SMSHandlerMixin.auth_url
        /\ is_logger_setup setup = true)
  /\ (forall cls kwargs self w1 p,
      handler_init env cls kwargs w = (inr self, w1) ->
      exists name,
        _log self (PDict [("status", PStr "ok"); ("phone", p)]) w1
        = (inl (AttributeError name), w1)).
Proof.
  cbv zeta.
  refine ((fun H => conj (proj1 H) (conj (proj2 H) _)) _).
  { intros cls kwargs self w1 p Hinit.
    destruct (handler_init_attrs env cls kwargs w w1 self Hinit) as [Hl Hc].
    now apply log_before_setup. }
  unfold get_handler.
  change (registry_get handlers "smstraffic.ru")
    with (Some (SMSTRAFFIC_SMSHandlerMixin_cls,
                [("login", PStr "login"); ("password", PStr "pass")])).
  cbv iota beta.
  destruct (registry_get loggers logger_name) as [lg|].
  2:{ simpl. rewrite new_events_same. split; [reflexivity | discriminate]. }
  match goal with
  | |- context [instantiate env ?cls ?kw w] =>
      destruct (instantiate_smstraffic_events env cls kw w eq_refl)
        as [[Hev [e He]] | (req & Hurl & [[Hev [e He]] | (setup & Hs & Hev)])];
      rewrite Hev
  end.
  - split; [reflexivity|]. intros self Hself. congruence.
  - split; [reflexivity|]. intros self Hself. congruence.
  - split.
    + destruct setup; try discriminate; reflexivity.
    + intros self _. now exists req, setup.
Qed.

Lemma provider_construction_precedes_logger_setup_witness :
  (exists req setup,
     new_events world0
       (snd (get_handler (env_auth 200 None) "smstraffic.ru" "simple" None world0))
     = [EvRequest req; setup]
     /\ req_url req = SMSTRAFFIC_SMSHandlerMixin.auth_url
     /\ is_logger_setup setup = true)
  /\ (exists name,
        _log (mkObj (obj_class smstraffic_simple) (PStr "login") (PStr "pass") PNone
                    (Some (PStr "a")) None None)
             ok_outcome
             (after_request world0 (auth_request (PStr "login") (PStr "pass")))
        = (inl (AttributeError name),
           after_request world0 (auth_request (PStr "login") (PStr "pass")))).
Proof.
  pose proof (provider_construction_precedes_logger_setup (env_auth 200 None)
                "simple" None world0) as H.
  cbv zeta in H. destruct H as (_ & Hok & Hlog).
  split.
  - apply (Hok smstraffic_simple). reflexivity.
  - apply (Hlog (obj_class smstraffic_simple)
                [("login", PStr "login"); ("password", PStr "pass")]).
    reflexivity.
Defined.

Lemma registry_auth_data (handler_name : string) (h : handler_mixin) (a : dict) :
  registry_get handlers handler_name = Some (h, a) ->
  a = [("login", PStr "login"); ("password", PStr "pass")].
Proof.
  unfold handlers. cbn [registry_get].
  destruct (String.eqb "smsr.ru" handler_name);
    [intros H; inversion H; reflexivity|].
  destruct (String.eqb "smstraffic.ru" handler_name);
    [intros H; inversion H; reflexivity|].
  discriminate.
Qed.

Lemma registry_handlers_known (handler_name : string) :
  registry_get handlers handler_name <> None ->
  exists h, registry_get handlers handler_name
            = Some (h, [("login", PStr "login"); ("password", PStr "pass")]).
Proof.
  intros H.
  destruct (registry_get handlers handler_name) as [[h a]|] eqn:E; [|congruence].
  exists h. now rewrite (registry_auth_data handler_name h a E).
Qed.

(** C5, as stated, fails: the default location is injected only when no
    overrides are passed at all.  With the overrides [{'sender': 'me'}] the
    SQLite logger's constructor is called without [db_uri] and raises
    [TypeError], although the default location is there. *)
Lemma overrides_without_db_uri_get_no_default :
  store_lookup (dbs world_db) default_db_uri = Some (mkStore true [] [])
  /\ dict_lookup [("sender", PStr "me")] "db_uri" = None
  /\ get_handler (env_auth 200 None) "smsr.ru" "sqlite"
       (Some [("sender", PStr "me")]) world_db
     = (inl missing_db_uri, world_db).
Proof. repeat split. Qed.

(** C5, amended: when [get_handler] is called for the SQLite logger with no
    overrides at all, the default location is injected and, the location
    being accessible, a handler connected to it is returned (for
    smstraffic.ru once the auth exchange has given a token).  Overrides that
    are passed are used as they are: without [db_uri] in them nothing is
    injected. *)
Theorem get_handler_sqlite_default_location (env : Env) (w : World) (s : Store) :
  store_lookup (dbs w) default_db_uri = Some s ->
  get_handler env "smsr.ru" "sqlite" None w
  = (inr (mkObj (mkClass "SMSCRU_SMSHandler" SQLiteLoggingMixin_cls
                         SMSCRU_SMSHandlerMixin_cls)
                (PStr "login") (PStr "pass") PNone None None (Some default_db_uri)),
     mkWorld (trace w ++ [EvConnect default_db_uri])
             (store_put (dbs w) default_db_uri
                (mkStore (has_table s) (committed s) [])))
  /\ (let cls := mkClass "SMSTRAFFIC_SMSHandler" SQLiteLoggingMixin_cls
                         SMSTRAFFIC_SMSHandlerMixin_cls in
      forall tok,
        fst (SMSTRAFFIC_SMSHandlerMixin._get_token env
               (mkObj cls (PStr "login") (PStr "pass") PNone None None None) w)
        = inr tok ->
        fst (get_handler env "smstraffic.ru" "sqlite" None w)
        = inr (mkObj cls (PStr "login") (PStr "pass") PNone (Some tok) None
                     (Some default_db_uri)))
  /\ (forall handler_name d,
        registry_get handlers handler_name <> None ->
        dict_lookup d "db_uri" = None ->
        get_handler env handler_name "sqlite" (Some d) w = (inl missing_db_uri, w)).
Proof.
  intros Hs. split; [|split].
  - unfold get_handler.
    cbn -[default_db_uri store_lookup store_put].
    unfold sqlite3_connect, bind, ret.
    change "file:/tmp/testdb.sqlite?mode=rw" with default_db_uri.
    rewrite Hs. reflexivity.
  - cbv zeta. intros tok Htok. unfold get_handler.
    cbn -[default_db_uri store_lookup store_put SMSTRAFFIC_SMSHandlerMixin._get_token].
    change "file:/tmp/testdb.sqlite?mode=rw" with default_db_uri.
    match type of Htok with
    | fst (SMSTRAFFIC_SMSHandlerMixin._get_token env ?o w) = _ => set (self0 := o) in *
    end.
    assert (Hrun :
      SMSTRAFFIC_SMSHandlerMixin.__init__ env
        (BaseSMSHandler.__init__ (obj_class self0))
        [("login", PStr "login"); ("password", PStr "pass")] w
      = (inr (set_token self0 tok),
         after_request w (auth_request (PStr "login") (PStr "pass")))).
    { unfold SMSTRAFFIC_SMSHandlerMixin.__init__.
      rewrite (bind_ok _ _ w w self0) by reflexivity.
      pose proof (get_token_world env self0 w) as Hw.
      unfold bind, ret.
      destruct (SMSTRAFFIC_SMSHandlerMixin._get_token env self0 w) as [[e|t] w1];
        simpl in Htok, Hw; [discriminate|].
      injection Htok as ->. subst w1. reflexivity. }
    erewrite bind_ok by exact Hrun.
    unfold sqlite3_connect, bind, ret. simpl dbs. rewrite Hs. reflexivity.
  - intros handler_name d Hknown Hd. unfold get_handler.
    destruct (registry_handlers_known handler_name Hknown) as [h ->].
    change (registry_get loggers "sqlite") with (Some SQLiteLoggingMixin_cls).
    cbv iota beta zeta.
    unfold instantiate, SQLiteLoggingMixin.__init__.
    cbn [logger_base]. cbv beta.
    rewrite dict_lookup_update_absent by assumption.
    reflexivity.
Qed.

Lemma get_handler_sqlite_default_location_witness :
  get_handler (env_auth 200 None) "smsr.ru" "sqlite" None world_db
  = (inr smsc_sqlite,
     mkWorld [EvConnect default_db_uri] [(default_db_uri, mkStore true [] [])])
  /\ fst (get_handler (env_auth 200 None) "smstraffic.ru" "sqlite" None world_db)
     = inr (mkObj (mkClass "SMSTRAFFIC_SMSHandler" SQLiteLoggingMixin_cls
                           SMSTRAFFIC_SMSHandlerMixin_cls)
                  (PStr "login") (PStr "pass") PNone (Some (PStr "a")) None
                  (Some default_db_uri))
  /\ get_handler (env_auth 200 None) "smstraffic.ru" "sqlite" (Some []) world_db
     = (inl missing_db_uri, world_db).
Proof.
  destruct (get_handler_sqlite_default_location (env_auth 200 None) world_db
              (mkStore true [] []) eq_refl) as (Ha & Hb & Hc).
  split; [exact Ha|]. split.
  - apply (Hb (PStr "a")). reflexivity.
  - apply Hc; [discriminate | reflexivity].
Defined.

(** ** Further properties of the loggers *)

Lemma cursor_execute_insert_err (cur : string) (row : Row) (w w' : World) (e : exn) :
  cursor_execute_insert cur row w = (inl e, w') -> w' = w.
Proof.
  unfold cursor_execute_insert.
  destruct (store_lookup _ _) as [s|]; [|now intros [= _ <-]].
  destruct (negb (has_table s)); [now intros [= _ <-]|].
  destruct (first_error _); [now intros [= _ <-]|].
  destruct (negb _); [now intros [= _ <-]|].
  destruct (is_None _); [now intros [= _ <-]|discriminate].
Qed.

Lemma connection_commit_ok (cur : string) (w : World) :
  fst (connection_commit cur w) = inr tt.
Proof. unfold connection_commit. now destruct (store_lookup _ _). Qed.

Lemma insert_commit_err (cur : string) (row : Row) (w : World) (e : exn) :
  fst ((cursor_execute_insert cur row ;;; connection_commit cur) w) = inl e ->
  snd ((cursor_execute_insert cur row ;;; connection_commit cur) w) = w.
Proof.
  unfold bind.
  destruct (cursor_execute_insert cur row w) as [[e'|[]] w1] eqn:E.
  - intros _. simpl. eapply cursor_execute_insert_err; eauto.
  - rewrite connection_commit_ok. discriminate.
Qed.

Lemma SimpleLoggingMixin_log_err (self : Obj) (result : pyval) (w : World) (e : exn) :
  fst (SimpleLoggingMixin._log self result w) = inl e ->
  snd (SimpleLoggingMixin._log self result w) = w.
Proof.
  unfold SimpleLoggingMixin._log, py_get, py_getitem, getattr, logger_info, emit,
    bind, ret, raise.
  destruct result; simpl; auto.
  destruct (is_None _); simpl; auto.
  destruct (eq_str _ "ok"); simpl.
  { destruct (logger self); simpl; auto.
    destruct (dict_lookup d "phone"); simpl; [discriminate|auto]. }
  destruct (eq_str _ "error"); simpl; auto.
  destruct (logger self); simpl; auto.
  destruct (dict_lookup d "phone"); simpl; auto.
  destruct (dict_lookup d "error_msg"); simpl; [discriminate|auto].
Qed.

Lemma insert_commit_err_run (cur : string) (row : Row) (w w' : World) (e : exn) :
  (cursor_execute_insert cur row ;;; connection_commit cur) w = (inl e, w') ->
  w' = w.
Proof.
  intros E. pose proof (insert_commit_err cur row w e) as H.
  rewrite E in H. now apply H.
Qed.

Lemma SQLiteLoggingMixin_log_err (self : Obj) (response : pyval) (w : World) (e : exn) :
  fst (SQLiteLoggingMixin._log self response w) = inl e ->
  snd (SQLiteLoggingMixin._log self response w) = w.
Proof.
  intros H.
  destruct (SQLiteLoggingMixin._log self response w) as [r w'] eqn:E.
  simpl in *. subst r. revert E.
  unfold SQLiteLoggingMixin._log, py_get, py_getitem, getattr.
  destruct response; try (now intros [= _ <-]).
  unfold bind at 1. unfold ret at 1.
  destruct (is_None _); [now intros [= _ <-]|].
  destruct (eq_str _ "ok").
  { destruct (c self); [|now intros [= _ <-]].
    unfold bind at 1. unfold ret at 1.
    destruct (dict_lookup d "phone"); [|now intros [= _ <-]].
    unfold bind at 1. unfold ret at 1. apply insert_commit_err_run. }
  destruct (eq_str _ "error"); [|now intros [= _ <-]].
  destruct (c self); [|now intros [= _ <-]].
  unfold bind at 1. unfold ret at 1.
  destruct (dict_lookup d "phone"); [|now intros [= _ <-]].
  unfold bind at 1. unfold ret at 1.
  destruct (dict_lookup d "error_code"); [|now intros [= _ <-]].
  unfold bind at 1. unfold ret at 1.
  destruct (dict_lookup d "error_msg"); [|now intros [= _ <-]].
  unfold bind at 1. unfold ret at 1. apply insert_commit_err_run.
Qed.

Lemma log_err (self : Obj) (result : pyval) (w : World) (e : exn) :
  fst (_log self result w) = inl e -> snd (_log self result w) = w.
Proof.
  unfold _log. destruct (logger_base _).
  - apply SimpleLoggingMixin_log_err.
  - apply SQLiteLoggingMixin_log_err.
Qed.








(** ** Further properties of [send] *)

(** What [send] of a composed handler unfolds to, once the request has been
    answered. *)
Lemma send_SMSCRU_run (env : Env) (self : Obj) (user_data : dict) (w : World) :
  handler_base (obj_class self) = SMSCRU_SMSHandlerMixin_cls ->
  let req := smsc_request self user_data in
  let r := transport env (trace w) req in
  send env self user_data w
  = if negb (status_code r =? 200)%Z
    then _log self (failure_outcome env user_data) (after_request w req)
    else match json_loads env (text r) with
         | Some v => _log self v (after_request w req)
         | None => (inl JSONDecodeError, after_request w req)
         end.
Proof.
  intros Hh. cbv zeta. unfold send. rewrite Hh.
  unfold SMSCRU_SMSHandlerMixin.send.
  erewrite bind_ok by apply requests_get_run.
  fold (smsc_request self user_data).
  destruct (negb _); [reflexivity|].
  unfold loads. now destruct (json_loads env _).
Qed.

Lemma send_SMSTRAFFIC_run (env : Env) (self : Obj) (t : pyval) (user_data : dict)
      (w : World) :
  handler_base (obj_class self) = SMSTRAFFIC_SMSHandlerMixin_cls ->
  token self = Some t ->
  let req := smstraffic_request t user_data in
  let r := transport env (trace w) req in
  send env self user_data w
  = if negb (status_code r =? 200)%Z
    then _log self (failure_outcome env user_data) (after_request w req)
    else match json_loads env (text r) with
         | Some v => _log self v (after_request w req)
         | None => (inl JSONDecodeError, after_request w req)
         end.
Proof.
  intros Hh Ht. cbv zeta. unfold send. rewrite Hh.
  unfold SMSTRAFFIC_SMSHandlerMixin.send. rewrite Ht.
  unfold getattr. erewrite bind_ok by reflexivity.
  erewrite bind_ok by apply requests_post_run.
  fold (smstraffic_request t user_data).
  destruct (negb _); [reflexivity|].
  unfold loads. now destruct (json_loads env _).
Qed.







(** X4: a response with status 200 whose body does not decode makes [send] of
    either provider raise [JSONDecodeError] right after the request; [_log]
    is not called, so nothing is logged or stored. *)
Theorem send_undecodable_body (env : Env) (self : Obj) (user_data : dict) (w : World) :
  (handler_base (obj_class self) = SMSCRU_SMSHandlerMixin_cls ->
   let req := smsc_request self user_data in
   status_code (transport env (trace w) req) = 200%Z ->
   json_loads env (text (transport env (trace w) req)) = None ->
   send env self user_data w = (inl JSONDecodeError, after_request w req))
  /\ (handler_base (obj_class self) = SMSTRAFFIC_SMSHandlerMixin_cls ->
      forall t, token self = Some t ->
      let req := smstraffic_request t user_data in
      status_code (transport env (trace w) req) = 200%Z ->
      json_loads env (text (transport env (trace w) req)) = None ->
      send env self user_data w = (inl JSONDecodeError, after_request w req)).
Proof.
  split.
  - intros Hh req Hst Hbody.
    rewrite (send_SMSCRU_run env self user_data w Hh). cbv zeta.
    fold req. now rewrite status_200, Hbody.
  - intros Hh t Ht req Hst Hbody.
    rewrite (send_SMSTRAFFIC_run env self t user_data w Hh Ht). cbv zeta.
    fold req. now rewrite status_200, Hbody.
Qed.

Lemma send_undecodable_body_witness :
  send (env_const 200 None) smsc_sqlite [] world_db
  = (inl JSONDecodeError, after_request world_db (smsc_request smsc_sqlite []))
  /\ send (env_const 200 None) smstraffic_simple [] world0
     = (inl JSONDecodeError,
        after_request world0 (smstraffic_request (PStr "a") [])).
Proof.
  split.
  - apply (proj1 (send_undecodable_body (env_const 200 None) smsc_sqlite [] world_db));
      reflexivity.
  - apply (proj2 (send_undecodable_body (env_const 200 None) smstraffic_simple []
                    world0) eq_refl (PStr "a")); reflexivity.
Defined.

Lemma log_not_dict (self : Obj) (v : pyval) (w : World) :
  is_dict v = false -> _log self v w = (inl (AttributeError "get"), w).
Proof.
  intros H. unfold _log.
  destruct (logger_base _);
    unfold SimpleLoggingMixin._log, SQLiteLoggingMixin._log, py_get;
    destruct v; try discriminate; reflexivity.
Qed.

(** X5: a response with status 200 whose body decodes to something other than
    a mapping (a list, a string, a number, null) makes [send] raise
    [AttributeError] from the logger's [.get], with either logger; nothing is
    logged or stored. *)
Theorem send_body_not_a_mapping (env : Env) (self : Obj) (user_data : dict)
        (w : World) (v : pyval) :
  is_dict v = false ->
  (handler_base (obj_class self) = SMSCRU_SMSHandlerMixin_cls ->
   let req := smsc_request self user_data in
   status_code (transport env (trace w) req) = 200%Z ->
   json_loads env (text (transport env (trace w) req)) = Some v ->
   send env self user_data w = (inl (AttributeError "get"), after_request w req))
  /\ (handler_base (obj_class self) = SMSTRAFFIC_SMSHandlerMixin_cls ->
      forall t, token self = Some t ->
      let req := smstraffic_request t user_data in
      status_code (transport env (trace w) req) = 200%Z ->
      json_loads env (text (transport env (trace w) req)) = Some v ->
      send env self user_data w = (inl (AttributeError "get"), after_request w req)).
Proof.
  intros Hv. split.
  - intros Hh req Hst Hbody.
    rewrite (send_SMSCRU_run env self user_data w Hh). cbv zeta.
    fold req. rewrite status_200, Hbody by assumption. now apply log_not_dict.
  - intros Hh t Ht req Hst Hbody.
    rewrite (send_SMSTRAFFIC_run env self t user_data w Hh Ht). cbv zeta.
    fold req. rewrite status_200, Hbody by assumption. now apply log_not_dict.
Qed.

Lemma send_body_not_a_mapping_witness :
  send (env_const 200 (Some (PList [ok_outcome]))) smsc_sqlite [] world_db
  = (inl (AttributeError "get"),
     after_request world_db (smsc_request smsc_sqlite []))
  /\ send (env_const 200 (Some PNone)) smstraffic_simple [] world0
     = (inl (AttributeError "get"),
        after_request world0 (smstraffic_request (PStr "a") [])).
Proof.
  split.
  - apply (proj1 (send_body_not_a_mapping (env_const 200 (Some (PList [ok_outcome])))
                    smsc_sqlite [] world_db (PList [ok_outcome]) eq_refl));
      reflexivity.
  - apply (proj2 (send_body_not_a_mapping (env_const 200 (Some PNone))
                    smstraffic_simple [] world0 PNone eq_refl) eq_refl (PStr "a"));
      reflexivity.
Defined.

(** ** Further properties of the factory *)

Lemma dict_set_keys (d : dict) (k k' : string) (v : pyval) :
  In k (map fst (dict_set d k' v)) <-> k = k' \/ In k (map fst d).
Proof.
  induction d as [|[k0 v0] d IH]; simpl.
  - intuition.
  - destruct (String.eqb k0 k') eqn:E; simpl.
    + apply String.eqb_eq in E. subst k0. intuition.
    + rewrite IH. intuition.
Qed.

Lemma dict_update_keys (other d : dict) (k : string) :
  In k (map fst (dict_update d other)) <-> In k (map fst d) \/ In k (map fst other).
Proof.
  unfold dict_update. revert d.
  induction other as [|[k' v'] other IH]; simpl; intros d.
  - intuition.
  - rewrite IH, dict_set_keys. intuition.
Qed.

Lemma dict_lookup_some_in (d : dict) (k : string) (v : pyval) :
  dict_lookup d k = Some v -> In k (map fst d).
Proof.
  induction d as [|[k' v'] d IH]; simpl; [discriminate|].
  destruct (String.eqb k' k) eqn:E.
  - apply String.eqb_eq in E. auto.
  - auto.
Qed.

Lemma dict_remove_keys (d : dict) (k k' : string) :
  In k (map fst (dict_remove d k')) <-> k <> k' /\ In k (map fst d).
Proof.
  induction d as [|[k0 v0] d IH]; simpl.
  - intuition.
  - destruct (String.eqb k0 k') eqn:E; simpl.
    + apply String.eqb_eq in E. subst k0. rewrite IH. intuition congruence.
    + assert (k0 <> k') by (intros ->; now rewrite String.eqb_refl in E).
      rewrite IH. intuition congruence.
Qed.

Lemma dict_lookup_remove_other (d : dict) (k k' : string) :
  k <> k' -> dict_lookup (dict_remove d k') k = dict_lookup d k.
Proof.
  intros Hne. induction d as [|[k0 v0] d IH]; simpl; auto.
  destruct (String.eqb k0 k') eqn:E; simpl.
  - apply String.eqb_eq in E. subst k0.
    destruct (String.eqb k' k) eqn:E'; auto.
    apply String.eqb_eq in E'. congruence.
  - now rewrite IH.
Qed.

(** Looking a key up after an update: the update's value if it has one, the
    old one otherwise. *)
Lemma dict_lookup_update (other d : dict) (k : string) :
  dict_wf other ->
  dict_lookup (dict_update d other) k
  = match dict_lookup other k with
    | Some v => Some v
    | None => dict_lookup d k
    end.
Proof.
  intros Hwf. destruct (dict_lookup other k) as [v|] eqn:E.
  - now apply dict_lookup_update_present.
  - now apply dict_lookup_update_absent.
Qed.

Lemma BaseSMSHandler_init_rejects (cls : Class) (kwargs : dict) (w : World)
      (k : string) :
  In k (map fst kwargs) ->
  base_keyword k = false ->
  BaseSMSHandler.__init__ cls kwargs w
  = (inl (TypeError "__init__() got an unexpected keyword argument"), w).
Proof.
  intros Hin Hk. unfold BaseSMSHandler.__init__.
  replace (existsb _ kwargs) with true; [reflexivity|].
  symmetry. apply existsb_exists.
  apply in_map_iff in Hin. destruct Hin as ([k0 v0] & <- & Hin).
  exists (k0, v0). split; [assumption|].
  simpl fst in *. unfold base_keyword in Hk. now rewrite Hk.
Qed.

Lemma BaseSMSHandler_init_accepts (cls : Class) (kwargs : dict) (w : World)
      (l p : pyval) :
  (forall k, In k (map fst kwargs) -> base_keyword k = true) ->
  dict_lookup kwargs "login" = Some l ->
  dict_lookup kwargs "password" = Some p ->
  BaseSMSHandler.__init__ cls kwargs w
  = (inr (mkObj cls l p (dict_get kwargs "sender" PNone) None None None), w).
Proof.
  intros Hall Hl Hp. unfold BaseSMSHandler.__init__.
  replace (existsb _ kwargs) with false; [now rewrite Hl, Hp|].
  symmetry. apply not_true_is_false. intros H.
  apply existsb_exists in H. destruct H as ([k0 v0] & Hin & Hneg).
  simpl fst in Hneg.
  assert (Hk : base_keyword k0 = true).
  { apply Hall. apply in_map_iff. now exists (k0, v0). }
  unfold base_keyword in Hk. now rewrite Hk in Hneg.
Qed.

(** What a successful [BaseSMSHandler.__init__] tells about its arguments and
    about the instance. *)
Lemma BaseSMSHandler_init_ok (cls : Class) (kwargs : dict) (w : World) (self0 : Obj) :
  fst (BaseSMSHandler.__init__ cls kwargs w) = inr self0 ->
  self0 = mkObj cls (login self0) (password self0)
                (dict_get kwargs "sender" PNone) None None None
  /\ dict_lookup kwargs "login" = Some (login self0)
  /\ dict_lookup kwargs "password" = Some (password self0)
  /\ forall k, In k (map fst kwargs) -> base_keyword k = true.
Proof.
  unfold BaseSMSHandler.__init__.
  destruct (existsb _ kwargs) eqn:Hex; [discriminate|].
  destruct (dict_lookup kwargs "login") as [l|]; [|discriminate].
  destruct (dict_lookup kwargs "password") as [p|]; [|discriminate].
  simpl. intros [= <-]. simpl. repeat split.
  intros k Hin. destruct (base_keyword k) eqn:Hk; [reflexivity|].
  assert (existsb (fun kv => negb (existsb (String.eqb (fst kv))
                                           ["login"; "password"; "sender"])) kwargs
          = true) as Habs; [|congruence].
  apply existsb_exists.
  apply in_map_iff in Hin. destruct Hin as ([k0 v0] & <- & Hin).
  exists (k0, v0). split; [assumption|].
  simpl fst in *. unfold base_keyword in Hk. now rewrite Hk.
Qed.

Lemma get_token_not_None (env : Env) (self : Obj) (w : World) (tok : pyval) :
  fst (SMSTRAFFIC_SMSHandlerMixin._get_token env self w) = inr tok ->
  is_None tok = false.
Proof.
  unfold SMSTRAFFIC_SMSHandlerMixin._get_token.
  erewrite bind_ok by apply requests_post_run.
  destruct (negb _); [discriminate|].
  unfold loads. destruct (json_loads env _) as [v|]; [|discriminate].
  unfold bind at 1. unfold ret at 1.
  unfold py_get. destruct v; try discriminate.
  unfold bind, ret. destruct (is_None _) eqn:E; [discriminate|].
  simpl. now intros [= <-].
Qed.

(** The provider's part of the constructor chain, when it succeeds. *)
Lemma handler_init_ok (env : Env) (cls : Class) (kwargs : dict) (w w1 : World)
      (self : Obj) :
  handler_init env cls kwargs w = (inr self, w1) ->
  exists self0,
    fst (BaseSMSHandler.__init__ cls kwargs w) = inr self0
    /\ match handler_base cls with
       | SMSCRU_SMSHandlerMixin_cls => self = self0 /\ w1 = w
       | SMSTRAFFIC_SMSHandlerMixin_cls =>
           exists tok,
             fst (SMSTRAFFIC_SMSHandlerMixin._get_token env self0 w) = inr tok
             /\ self = set_token self0 tok
             /\ w1 = after_request w (auth_request (login self0) (password self0))
       end.
Proof.
  unfold handler_init. destruct (handler_base cls).
  - rewrite BaseSMSHandler_init_run. intros [= Hf <-]. now exists self.
  - unfold SMSTRAFFIC_SMSHandlerMixin.__init__.
    destruct (fst (BaseSMSHandler.__init__ cls kwargs w)) as [e|self0] eqn:Hb.
    + rewrite (bind_err _ _ w w e)
        by (rewrite BaseSMSHandler_init_run, Hb; reflexivity).
      discriminate.
    + rewrite (bind_ok _ _ w w self0)
        by (rewrite BaseSMSHandler_init_run, Hb; reflexivity).
      pose proof (get_token_world env self0 w) as Hw.
      unfold bind, ret.
      destruct (SMSTRAFFIC_SMSHandlerMixin._get_token env self0 w)
        as [[e|tok] w2] eqn:Et; [discriminate|].
      simpl in Hw. intros [= <- <-].
      exists self0. split; [reflexivity|]. exists tok.
      split; [now rewrite Et|]. split; [reflexivity|exact Hw].
Qed.

(** The whole constructor chain, when it succeeds: the provider's part first,
    then the logger's setup. *)
Lemma instantiate_ok (env : Env) (cls : Class) (kwargs : dict) (w w' : World)
      (self : Obj) :
  instantiate env cls kwargs w = (inr self, w') ->
  match logger_base cls with
  | SimpleLoggingMixin_cls =>
      exists s1 w1,
        handler_init env cls kwargs w = (inr s1, w1)
        /\ self = set_logger s1 "sms"
        /\ w' = mkWorld (trace w1 ++ [EvGetLogger "sms"]) (dbs w1)
  | SQLiteLoggingMixin_cls =>
      exists uri s1 w1 st,
        dict_lookup kwargs "db_uri" = Some (PStr uri)
        /\ handler_init env cls (dict_remove kwargs "db_uri") w = (inr s1, w1)
        /\ store_lookup (dbs w1) uri = Some st
        /\ self = set_c s1 uri
        /\ w' = mkWorld (trace w1 ++ [EvConnect uri])
                  (store_put (dbs w1) uri (mkStore (has_table st) (committed st) []))
  end.
Proof.
  unfold instantiate. destruct (logger_base cls).
  - unfold SimpleLoggingMixin.__init__.
    destruct (handler_init env cls kwargs w) as [[e|s1] w1] eqn:Hh.
    + erewrite bind_err by exact Hh. discriminate.
    + erewrite bind_ok by exact Hh.
      unfold getLogger, emit, bind, ret. intros [= <- <-]. now exists s1, w1.
  - unfold SQLiteLoggingMixin.__init__.
    destruct (dict_lookup kwargs "db_uri") as [db_uri|]; [|discriminate].
    destruct (handler_init env cls (dict_remove kwargs "db_uri") w)
      as [[e|s1] w1] eqn:Hh.
    + erewrite bind_err by exact Hh. discriminate.
    + erewrite bind_ok by exact Hh.
      destruct db_uri as [| | | |uri| |]; try discriminate.
      unfold sqlite3_connect, bind, ret.
      destruct (store_lookup (dbs w1) uri) as [st|] eqn:Hst; [|discriminate].
      intros [= <- <-]. now exists uri, s1, w1, st.
Qed.

Lemma registry_loggers_known (logger_name : string) (lg : logger_mixin) :
  registry_get loggers logger_name = Some lg ->
  (logger_name = "simple" /\ lg = SimpleLoggingMixin_cls)
  \/ (logger_name = "sqlite" /\ lg = SQLiteLoggingMixin_cls).
Proof.
  unfold loggers. cbn [registry_get].
  destruct (String.eqb "simple" logger_name) eqn:E1.
  { apply String.eqb_eq in E1. intros [= <-]. auto. }
  destruct (String.eqb "sqlite" logger_name) eqn:E2.
  { apply String.eqb_eq in E2. intros [= <-]. auto. }
  discriminate.
Qed.

Lemma registry_handlers_cases (handler_name : string) :
  (handler_name = "smsr.ru"
   /\ registry_get handlers handler_name
      = Some (SMSCRU_SMSHandlerMixin_cls,
              [("login", PStr "login"); ("password", PStr "pass")]))
  \/ (handler_name = "smstraffic.ru"
      /\ registry_get handlers handler_name
         = Some (SMSTRAFFIC_SMSHandlerMixin_cls,
                 [("login", PStr "login"); ("password", PStr "pass")]))
  \/ registry_get handlers handler_name = None.
Proof.
  unfold handlers. cbn [registry_get].
  destruct (String.eqb "smsr.ru" handler_name) eqn:E1.
  { apply String.eqb_eq in E1. auto. }
  destruct (String.eqb "smstraffic.ru" handler_name) eqn:E2.
  { apply String.eqb_eq in E2. auto. }
  auto.
Qed.

(** The keyword arguments [get_handler] passes to the class. *)
Lemma get_handler_run (env : Env) (handler_name logger_name : string)
      (handler_data : option dict) (h : handler_mixin) (lg : logger_mixin) :
  registry_get handlers handler_name
  = Some (h, [("login", PStr "login"); ("password", PStr "pass")]) ->
  registry_get loggers logger_name = Some lg ->
  get_handler env handler_name logger_name handler_data
  = instantiate env
      (mkClass (match h with
                | SMSCRU_SMSHandlerMixin_cls => "SMSCRU_SMSHandler"
                | SMSTRAFFIC_SMSHandlerMixin_cls => "SMSTRAFFIC_SMSHandler"
                end) lg h)
      (dict_update [("login", PStr "login"); ("password", PStr "pass")]
         match handler_data with
         | Some d => d
         | None =>
             match lg with
             | SimpleLoggingMixin_cls => []
             | SQLiteLoggingMixin_cls => [("db_uri", PStr default_db_uri)]
             end
         end).
Proof.
  intros Hh Hl. unfold get_handler. rewrite Hh, Hl.
  destruct (registry_loggers_known logger_name lg Hl) as [[-> ->] | [-> ->]];
    destruct h; destruct handler_data; reflexivity.
Qed.

Lemma handler_init_ready (env : Env) (cls : Class) (kwargs : dict) (w w1 : World)
      (self : Obj) :
  handler_init env cls kwargs w = (inr self, w1) ->
  obj_class self = cls /\ logger self = None /\ c self = None
  /\ dbs w1 = dbs w
  /\ match handler_base cls with
     | SMSCRU_SMSHandlerMixin_cls => token self = None
     | SMSTRAFFIC_SMSHandlerMixin_cls =>
         exists t, token self = Some t /\ is_None t = false
     end.
Proof.
  intros H. destruct (handler_init_ok env cls kwargs w w1 self H) as (self0 & Hb & Hm).
  destruct (BaseSMSHandler_init_ok cls kwargs w self0 Hb) as (Hself0 & _).
  destruct (handler_base cls).
  - destruct Hm as [-> ->]. rewrite Hself0. simpl. auto.
  - destruct Hm as (tok & Htok & -> & ->). rewrite Hself0. simpl.
    repeat split; auto. exists tok. split; [reflexivity|].
    eapply get_token_not_None; eauto.
Qed.

Lemma instantiate_ready (env : Env) (cls : Class) (kwargs : dict) (w w' : World)
      (self : Obj) :
  instantiate env cls kwargs w = (inr self, w') ->
  obj_class self = cls
  /\ match handler_base cls with
     | SMSCRU_SMSHandlerMixin_cls => token self = None
     | SMSTRAFFIC_SMSHandlerMixin_cls =>
         exists t, token self = Some t /\ is_None t = false
     end
  /\ match logger_base cls with
     | SimpleLoggingMixin_cls => logger self = Some "sms" /\ c self = None
     | SQLiteLoggingMixin_cls =>
         logger self = None
         /\ exists uri s,
              dict_lookup kwargs "db_uri" = Some (PStr uri)
              /\ c self = Some uri
              /\ store_lookup (dbs w') uri = Some s
              /\ pending s = []
     end.
Proof.
  intros H. apply instantiate_ok in H. destruct (logger_base cls).
  - destruct H as (s1 & w1 & Hh & -> & ->).
    destruct (handler_init_ready env cls kwargs w w1 s1 Hh) as (Hc & Hl & Hcur & _ & Ht).
    simpl. split; [exact Hc|]. split; [exact Ht|]. split; [reflexivity|exact Hcur].
  - destruct H as (uri & s1 & w1 & st & Huri & Hh & Hst & -> & ->).
    destruct (handler_init_ready env cls _ w w1 s1 Hh) as (Hc & Hl & Hcur & _ & Ht).
    simpl. split; [exact Hc|]. split; [exact Ht|]. split; [exact Hl|].
    exists uri. eexists. split; [exact Huri|]. split; [reflexivity|].
    split; [apply store_lookup_put_same | reflexivity].
Qed.

(** X6: a handler that [get_handler] returns is complete.  Both names were in
    the registries; the handler's class is named after the provider mixin
    without the suffix [Mixin] and is built from the logger and the provider
    the registries give; a smstraffic.ru handler holds a token that is not
    [None]; a text-logger handler holds its logger, and a SQLite handler a
    cursor on a store that exists and has no open transaction. *)
Theorem get_handler_returns_ready_handler (env : Env)
        (handler_name logger_name : string) (handler_data : option dict)
        (w w' : World) (self : Obj) :
  get_handler env handler_name logger_name handler_data w = (inr self, w') ->
  exists h lg,
    registry_get handlers handler_name
    = Some (h, [("login", PStr "login"); ("password", PStr "pass")])
    /\ registry_get loggers logger_name = Some lg
    /\ obj_class self
       = mkClass (match h with
                  | SMSCRU_SMSHandlerMixin_cls => "SMSCRU_SMSHandler"
                  | SMSTRAFFIC_SMSHandlerMixin_cls => "SMSTRAFFIC_SMSHandler"
                  end) lg h
    /\ match h with
       | SMSCRU_SMSHandlerMixin_cls => token self = None
       | SMSTRAFFIC_SMSHandlerMixin_cls =>
           exists t, token self = Some t /\ is_None t = false
       end
    /\ match lg with
       | SimpleLoggingMixin_cls => logger self = Some "sms" /\ c self = None
       | SQLiteLoggingMixin_cls =>
           logger self = None
           /\ exists uri s,
                c self = Some uri
                /\ store_lookup (dbs w') uri = Some s
                /\ pending s = []
       end.
Proof.
  intros H.
  destruct (registry_get loggers logger_name) as [lg|] eqn:Hl.
  2:{ unfold get_handler in H. rewrite Hl in H.
      destruct (registry_get handlers handler_name) as [[? ?]|]; discriminate. }
  destruct (registry_handlers_cases handler_name) as [[_ Hh] | [[_ Hh] | Hh]].
  3:{ unfold get_handler in H. rewrite Hh in H. discriminate. }
  all: rewrite (get_handler_run env _ _ handler_data _ lg Hh Hl) in H;
    apply instantiate_ready in H; cbn [logger_base handler_base] in H;
    destruct H as (Hc & Ht & Hlg);
    eexists _, lg; split; [exact Hh|]; split; [reflexivity|];
    split; [exact Hc|]; split; [exact Ht|];
    destruct lg; [exact Hlg|];
    destruct Hlg as (Hlog & uri & s & _ & Hcur & Hs & Hp);
    split; [exact Hlog|]; now exists uri, s.
Qed.

Lemma get_handler_returns_ready_handler_witness :
  exists h lg,
    registry_get handlers "smstraffic.ru"
    = Some (h, [("login", PStr "login"); ("password", PStr "pass")])
    /\ registry_get loggers "sqlite" = Some lg
    /\ obj_class
         (mkObj (mkClass "SMSTRAFFIC_SMSHandler" SQLiteLoggingMixin_cls
                         SMSTRAFFIC_SMSHandlerMixin_cls)
                (PStr "login") (PStr "pass") PNone (Some (PStr "a")) None
                (Some default_db_uri))
       = mkClass (match h with
                  | SMSCRU_SMSHandlerMixin_cls => "SMSCRU_SMSHandler"
                  | SMSTRAFFIC_SMSHandlerMixin_cls => "SMSTRAFFIC_SMSHandler"
                  end) lg h.
Proof.
  destruct (get_handler_returns_ready_handler (env_auth 200 None) "smstraffic.ru"
              "sqlite" None world_db _ _ eq_refl)
    as (h & lg & Hh & Hl & Hc & _).
  now exists h, lg.
Defined.

(** The keyword arguments made of the registry's credentials and of overrides
    that name only [login], [password] and [sender]. *)
Lemma overrides_kwargs (d : dict) :
  dict_wf d ->
  (forall k, In k (map fst d) -> base_keyword k = true) ->
  let kwargs := dict_update [("login", PStr "login"); ("password", PStr "pass")] d in
  (forall k, In k (map fst kwargs) -> base_keyword k = true)
  /\ dict_lookup kwargs "login" = Some (dict_get d "login" (PStr "login"))
  /\ dict_lookup kwargs "password" = Some (dict_get d "password" (PStr "pass"))
  /\ dict_get kwargs "sender" PNone = dict_get d "sender" PNone.
Proof.
  intros Hwf Hkeys. cbv zeta. split; [|split; [|split]].
  - intros k Hin. apply dict_update_keys in Hin. destruct Hin as [Hin|Hin]; auto.
    simpl in Hin. destruct Hin as [<- | [<- | []]]; reflexivity.
  - rewrite dict_lookup_update by assumption. unfold dict_get.
    now destruct (dict_lookup d "login").
  - rewrite dict_lookup_update by assumption. unfold dict_get.
    now destruct (dict_lookup d "password").
  - unfold dict_get at 1. rewrite dict_lookup_update by assumption. unfold dict_get.
    now destruct (dict_lookup d "sender").
Qed.

(** X7: overrides win over the registry's credentials.  With the text logger
    and overrides that name only [login], [password] and [sender], the
    smsr.ru handler is returned with the overriding values (the registry's
    where there is no override, [None] for a missing sender) after nothing
    but the logger's setup; for smstraffic.ru the one request sent is the auth
    POST with the overriding login and password, and a handler that comes
    back holds these values. *)
Theorem get_handler_overrides_win (env : Env) (d : dict) (w : World) :
  dict_wf d ->
  (forall k, In k (map fst d) -> base_keyword k = true) ->
  let l := dict_get d "login" (PStr "login") in
  let p := dict_get d "password" (PStr "pass") in
  let sd := dict_get d "sender" PNone in
  get_handler env "smsr.ru" "simple" (Some d) w
  = (inr (mkObj (mkClass "SMSCRU_SMSHandler" SimpleLoggingMixin_cls
                         SMSCRU_SMSHandlerMixin_cls)
                l p sd None (Some "sms") None),
     mkWorld (trace w ++ [EvGetLogger "sms"]) (dbs w))
  /\ sent_requests w (snd (get_handler env "smstraffic.ru" "simple" (Some d) w))
     = [auth_request l p]
  /\ (forall self,
        fst (get_handler env "smstraffic.ru" "simple" (Some d) w) = inr self ->
        login self = l /\ password self = p /\ sender self = sd).
Proof.
  intros Hwf Hkeys. cbv zeta.
  destruct (overrides_kwargs d Hwf Hkeys) as (Hall & Hl & Hp & Hs).
  split.
  - rewrite (get_handler_run env "smsr.ru" "simple" (Some d)
               SMSCRU_SMSHandlerMixin_cls SimpleLoggingMixin_cls eq_refl eq_refl).
    unfold instantiate, handler_init. cbn [logger_base handler_base].
    unfold SimpleLoggingMixin.__init__.
    erewrite bind_ok by (apply BaseSMSHandler_init_accepts; eauto).
    rewrite Hs. reflexivity.
  - rewrite (get_handler_run env "smstraffic.ru" "simple" (Some d)
               SMSTRAFFIC_SMSHandlerMixin_cls SimpleLoggingMixin_cls eq_refl eq_refl).
    set (cls := mkClass "SMSTRAFFIC_SMSHandler" SimpleLoggingMixin_cls
                        SMSTRAFFIC_SMSHandlerMixin_cls).
    set (kwargs := dict_update [("login", PStr "login"); ("password", PStr "pass")] d)
      in *.
    pose proof (BaseSMSHandler_init_accepts cls kwargs w _ _ Hall Hl Hp) as Hb.
    set (self0 := mkObj cls (dict_get d "login" (PStr "login"))
                        (dict_get d "password" (PStr "pass"))
                        (dict_get kwargs "sender" PNone) None None None) in *.
    assert (Hb' : fst (BaseSMSHandler.__init__ cls kwargs w) = inr self0)
      by now rewrite Hb.
    destruct (SMSTRAFFIC_constructor_world env cls kwargs w self0 Hb') as [Hw Hr].
    unfold instantiate, handler_init. cbn [logger_base handler_base cls].
    fold cls. unfold SimpleLoggingMixin.__init__.
    destruct (SMSTRAFFIC_SMSHandlerMixin.__init__ env (BaseSMSHandler.__init__ cls)
                kwargs w) as [[e|s1] w1] eqn:Hi; simpl in Hw; subst w1.
    + rewrite (bind_err _ _ _ _ _ Hi). simpl. split.
      * apply sent_requests_one with (evs := []); reflexivity.
      * discriminate.
    + rewrite (bind_ok _ _ _ _ _ Hi).
      unfold getLogger, emit, bind, ret. simpl. split.
      * apply sent_requests_one with (evs := [EvGetLogger "sms"]); [|reflexivity].
        simpl. now rewrite <- app_assoc.
      * intros self [= <-]. destruct (Hr s1 eq_refl) as [tok ->].
        simpl. rewrite Hs. auto.
Qed.

Lemma get_handler_overrides_win_witness :
  get_handler (env_const 200 None) "smsr.ru" "simple"
    (Some [("password", PStr "secret"); ("sender", PStr "shop")]) world0
  = (inr (mkObj (mkClass "SMSCRU_SMSHandler" SimpleLoggingMixin_cls
                         SMSCRU_SMSHandlerMixin_cls)
                (PStr "login") (PStr "secret") (PStr "shop") None (Some "sms") None),
     mkWorld [EvGetLogger "sms"] [])
  /\ sent_requests world0
       (snd (get_handler (env_const 200 None) "smstraffic.ru" "simple"
               (Some [("password", PStr "secret"); ("sender", PStr "shop")]) world0))
     = [auth_request (PStr "login") (PStr "secret")].
Proof.
  assert (Hwf : dict_wf [("password", PStr "secret"); ("sender", PStr "shop")]).
  { unfold dict_wf. simpl. repeat constructor; simpl; intuition discriminate. }
  assert (Hkeys : forall k,
             In k (map fst [("password", PStr "secret"); ("sender", PStr "shop")]) ->
             base_keyword k = true).
  { simpl. intros k [<- | [<- | []]]; reflexivity. }
  destruct (get_handler_overrides_win (env_const 200 None) _ world0 Hwf Hkeys)
    as (Ha & Hb & _).
  split; [exact Ha | exact Hb].
Defined.

Lemma handler_init_rejects (env : Env) (cls : Class) (kwargs : dict) (w : World)
      (k : string) :
  In k (map fst kwargs) ->
  base_keyword k = false ->
  handler_init env cls kwargs w
  = (inl (TypeError "__init__() got an unexpected keyword argument"), w).
Proof.
  intros Hin Hk. unfold handler_init. destruct (handler_base cls).
  - now apply BaseSMSHandler_init_rejects with (k := k).
  - unfold SMSTRAFFIC_SMSHandlerMixin.__init__.
    apply bind_err. now apply BaseSMSHandler_init_rejects with (k := k).
Qed.

(** X8: a keyword that no constructor of the chain takes stops the
    construction before anything happens.  For names the registries know and
    overrides with a key other than [login], [password], [sender] (and, with
    the SQLite logger, other than [db_uri]), [get_handler] raises [TypeError]
    and the world is untouched: no auth request, no logger, no connection.
    With the text logger this includes the key [db_uri]. *)
Theorem get_handler_unexpected_keyword (env : Env) (handler_name logger_name : string)
        (d : dict) (w : World) (k : string) (v : pyval) :
  registry_get handlers handler_name <> None ->
  registry_get loggers logger_name <> None ->
  dict_lookup d k = Some v ->
  base_keyword k = false ->
  (logger_name = "sqlite" -> k <> "db_uri") ->
  exists msg,
    get_handler env handler_name logger_name (Some d) w = (inl (TypeError msg), w).
Proof.
  intros Hh Hl Hk Hbase Hdb.
  destruct (registry_handlers_known handler_name Hh) as [h Hh'].
  destruct (registry_get loggers logger_name) as [lg|] eqn:Hl'; [|congruence].
  rewrite (get_handler_run env _ _ (Some d) h lg Hh' Hl').
  set (kwargs := dict_update [("login", PStr "login"); ("password", PStr "pass")] d).
  assert (Hin : In k (map fst kwargs)).
  { apply dict_update_keys. right. eapply dict_lookup_some_in; eauto. }
  unfold instantiate. cbn [logger_base].
  destruct (registry_loggers_known logger_name lg Hl') as [[-> ->] | [-> ->]].
  - unfold SimpleLoggingMixin.__init__. eexists. apply bind_err.
    now apply handler_init_rejects with (k := k).
  - unfold SQLiteLoggingMixin.__init__.
    destruct (dict_lookup kwargs "db_uri"); [|eexists; reflexivity].
    eexists. apply bind_err. apply handler_init_rejects with (k := k); [|assumption].
    apply dict_remove_keys. split; [now apply Hdb | assumption].
Qed.

Lemma get_handler_unexpected_keyword_witness :
  (exists msg,
     get_handler (env_auth 200 None) "smstraffic.ru" "simple"
       (Some [("db_uri", PStr default_db_uri)]) world_db
     = (inl (TypeError msg), world_db))
  /\ (exists msg,
        get_handler (env_auth 200 None) "smsr.ru" "sqlite"
          (Some [("db_uri", PStr default_db_uri); ("timeout", PInt 3)]) world_db
        = (inl (TypeError msg), world_db)).
Proof.
  split.
  - apply (get_handler_unexpected_keyword (env_auth 200 None) "smstraffic.ru" "simple"
             [("db_uri", PStr default_db_uri)] world_db "db_uri"
             (PStr default_db_uri));
      try reflexivity; discriminate.
  - apply (get_handler_unexpected_keyword (env_auth 200 None) "smsr.ru" "sqlite"
             [("db_uri", PStr default_db_uri); ("timeout", PInt 3)] world_db
             "timeout" (PInt 3));
      try reflexivity; discriminate.
Defined.

Lemma sent_requests_same (w : World) : sent_requests w w = [].
Proof. unfold sent_requests. now rewrite new_events_same. Qed.

Lemma sent_requests_setup (w : World) (e : Event) (d : list (string * Store)) :
  request_of e = None ->
  sent_requests w (mkWorld (trace w ++ [e]) d) = [].
Proof.
  intros He. unfold sent_requests. rewrite new_events_app. simpl. now rewrite He.
Qed.

(** The construction of a smsr.ru class sends nothing to the gateway. *)
Lemma instantiate_smsc_no_request (env : Env) (cls : Class) (kwargs : dict) (w : World) :
  handler_base cls = SMSCRU_SMSHandlerMixin_cls ->
  sent_requests w (snd (instantiate env cls kwargs w)) = [].
Proof.
  intros Hh. unfold instantiate, handler_init. rewrite Hh.
  destruct (logger_base cls).
  - unfold SimpleLoggingMixin.__init__.
    destruct (fst (BaseSMSHandler.__init__ cls kwargs w)) as [e|s0] eqn:Hb.
    + rewrite (bind_err _ _ w w e)
        by (rewrite BaseSMSHandler_init_run, Hb; reflexivity).
      apply sent_requests_same.
    + rewrite (bind_ok _ _ w w s0)
        by (rewrite BaseSMSHandler_init_run, Hb; reflexivity).
      unfold getLogger, emit, bind, ret. simpl. now apply sent_requests_setup.
  - unfold SQLiteLoggingMixin.__init__.
    destruct (dict_lookup kwargs "db_uri") as [db_uri|]; [|apply sent_requests_same].
    destruct (fst (BaseSMSHandler.__init__ cls (dict_remove kwargs "db_uri") w))
      as [e|s0] eqn:Hb.
    + rewrite (bind_err _ _ w w e)
        by (rewrite BaseSMSHandler_init_run, Hb; reflexivity).
      apply sent_requests_same.
    + rewrite (bind_ok _ _ w w s0)
        by (rewrite BaseSMSHandler_init_run, Hb; reflexivity).
      destruct db_uri; try apply sent_requests_same.
      unfold sqlite3_connect, bind, ret.
      destruct (store_lookup (dbs w) s); simpl; now apply sent_requests_setup.
Qed.

(** X9: [get_handler] contacts the gateway only for the auth exchange of
    smstraffic.ru.  For every other handler name it sends no request at all,
    and in every case it sends at most one request, to the auth URL. *)
Theorem get_handler_requests (env : Env) (handler_name logger_name : string)
        (handler_data : option dict) (w : World) :
  let reqs :=
    sent_requests w (snd (get_handler env handler_name logger_name handler_data w)) in
  (handler_name <> "smstraffic.ru" -> reqs = [])
  /\ (reqs = []
      \/ exists req,
           reqs = [req] /\ req_url req = SMSTRAFFIC_SMSHandlerMixin.auth_url).
Proof.
  cbv zeta.
  destruct (registry_get loggers logger_name) as [lg|] eqn:Hl.
  2:{ unfold get_handler. rewrite Hl.
      destruct (registry_get handlers handler_name) as [[? ?]|];
        simpl; rewrite sent_requests_same; auto. }
  destruct (registry_handlers_cases handler_name) as [[Hn Hh] | [[Hn Hh] | Hh]].
  - rewrite (get_handler_run env _ _ handler_data _ lg Hh Hl).
    rewrite instantiate_smsc_no_request by reflexivity. auto.
  - rewrite (get_handler_run env _ _ handler_data _ lg Hh Hl).
    split; [congruence|].
    match goal with
    | |- context [instantiate env ?cls ?kw w] =>
        destruct (instantiate_smstraffic_events env cls kw w eq_refl)
          as [[Hev _] | (req & Hurl & [[Hev _] | (setup & Hs & Hev)])];
        unfold sent_requests; rewrite Hev; simpl
    end.
    + auto.
    + right. now exists req.
    + right. exists req. split; [|assumption].
      destruct setup; try discriminate; reflexivity.
  - unfold get_handler. rewrite Hh. simpl. rewrite sent_requests_same. auto.
Qed.

Lemma get_handler_requests_witness :
  sent_requests world_db
    (snd (get_handler (env_auth 200 None) "smsr.ru" "sqlite" None world_db)) = [].
Proof.
  apply (proj1 (get_handler_requests (env_auth 200 None) "smsr.ru" "sqlite" None
                  world_db)).
  discriminate.
Defined.

(** X10: a store that cannot be opened fails the construction with
    [OperationalError], after the connection attempt.  With the default
    location missing, the smsr.ru handler fails right there; the
    smstraffic.ru handler has by then completed its auth exchange, whose
    token is lost with the handler. *)
Theorem get_handler_store_inaccessible (env : Env) (w : World) :
  store_lookup (dbs w) default_db_uri = None ->
  get_handler env "smsr.ru" "sqlite" None w
  = (inl (OperationalError "unable to open database file"),
     mkWorld (trace w ++ [EvConnect default_db_uri]) (dbs w))
  /\ (forall tok,
        fst (SMSTRAFFIC_SMSHandlerMixin._get_token env
               (mkObj (mkClass "SMSTRAFFIC_SMSHandler" SQLiteLoggingMixin_cls
                               SMSTRAFFIC_SMSHandlerMixin_cls)
                      (PStr "login") (PStr "pass") PNone None None None) w)
        = inr tok ->
        get_handler env "smstraffic.ru" "sqlite" None w
        = (inl (OperationalError "unable to open database file"),
           mkWorld (trace w ++ [EvRequest (auth_request (PStr "login") (PStr "pass"));
                                EvConnect default_db_uri])
                   (dbs w))).
Proof.
  intros Hs. split.
  - unfold get_handler.
    cbn -[default_db_uri store_lookup store_put].
    unfold sqlite3_connect, bind, ret.
    change "file:/tmp/testdb.sqlite?mode=rw" with default_db_uri.
    rewrite Hs. reflexivity.
  - intros tok Htok. unfold get_handler.
    cbn -[default_db_uri store_lookup store_put SMSTRAFFIC_SMSHandlerMixin._get_token].
    change "file:/tmp/testdb.sqlite?mode=rw" with default_db_uri.
    match type of Htok with
    | fst (SMSTRAFFIC_SMSHandlerMixin._get_token env ?o w) = _ => set (self0 := o) in *
    end.
    assert (Hrun :
      SMSTRAFFIC_SMSHandlerMixin.__init__ env
        (BaseSMSHandler.__init__ (obj_class self0))
        [("login", PStr "login"); ("password", PStr "pass")] w
      = (inr (set_token self0 tok),
         after_request w (auth_request (PStr "login") (PStr "pass")))).
    { unfold SMSTRAFFIC_SMSHandlerMixin.__init__.
      rewrite (bind_ok _ _ w w self0) by reflexivity.
      pose proof (get_token_world env self0 w) as Hw.
      unfold bind, ret.
      destruct (SMSTRAFFIC_SMSHandlerMixin._get_token env self0 w) as [[e|t] w1];
        simpl in Htok, Hw; [discriminate|].
      injection Htok as ->. subst w1. reflexivity. }
    erewrite bind_ok by exact Hrun.
    unfold sqlite3_connect, bind, ret. simpl dbs. rewrite Hs.
    unfold after_request. simpl. now rewrite <- app_assoc.
Qed.

Lemma get_handler_store_inaccessible_witness :
  get_handler (env_auth 200 None) "smsr.ru" "sqlite" None world0
  = (inl (OperationalError "unable to open database file"),
     mkWorld [EvConnect default_db_uri] [])
  /\ get_handler (env_auth 200 None) "smstraffic.ru" "sqlite" None world0
     = (inl (OperationalError "unable to open database file"),
        mkWorld [EvRequest (auth_request (PStr "login") (PStr "pass"));
                 EvConnect default_db_uri] []).
Proof.
  destruct (get_handler_store_inaccessible (env_auth 200 None) world0 eq_refl)
    as [Ha Hb].
  split; [exact Ha|]. apply (Hb (PStr "a")). reflexivity.
Defined.





(** ** Further properties of the auth exchange *)

(** [_get_token], case by case. *)
Lemma get_token_run (env : Env) (self : Obj) (w : World) :
  let req := auth_request (login self) (password self) in
  let r := transport env (trace w) req in
  SMSTRAFFIC_SMSHandlerMixin._get_token env self w
  = (if negb (status_code r =? 200)%Z
     then inl (RuntimeError ("Invalid response status code: "
                             ++ str_int (status_code r) ++ " != 200"))
     else match json_loads env (text r) with
          | None => inl JSONDecodeError
          | Some (PDict d) =>
              if is_None (dict_get d "token" PNone)
              then inl (RuntimeError "Response from server does not contain token")
              else inr (dict_get d "token" PNone)
          | Some _ => inl (AttributeError "get")
          end,
     after_request w req).
Proof.
  cbv zeta. unfold SMSTRAFFIC_SMSHandlerMixin._get_token.
  erewrite bind_ok by apply requests_post_run.
  fold (auth_request (login self) (password self)).
  destruct (negb _); [reflexivity|].
  unfold loads. destruct (json_loads env _) as [v|]; [|reflexivity].
  unfold bind at 1. unfold ret at 1.
  unfold py_get. destruct v; try reflexivity.
  unfold bind, ret. destruct (is_None _); reflexivity.
Qed.

Lemma smstraffic_simple_default_run (env : Env) (w : World) (e : exn) :
  fst (SMSTRAFFIC_SMSHandlerMixin._get_token env
         (mkObj (mkClass "SMSTRAFFIC_SMSHandler" SimpleLoggingMixin_cls
                         SMSTRAFFIC_SMSHandlerMixin_cls)
                (PStr "login") (PStr "pass") PNone None None None) w) = inl e ->
  get_handler env "smstraffic.ru" "simple" None w
  = (inl e, after_request w (auth_request (PStr "login") (PStr "pass"))).
Proof.
  intros He. unfold get_handler.
  cbn -[SMSTRAFFIC_SMSHandlerMixin._get_token].
  unfold SimpleLoggingMixin.__init__, SMSTRAFFIC_SMSHandlerMixin.__init__.
  apply bind_err.
  match type of He with
  | fst (SMSTRAFFIC_SMSHandlerMixin._get_token env ?o w) = _ => set (self0 := o) in *
  end.
  rewrite (bind_ok _ _ w w self0) by reflexivity.
  apply bind_err.
  pose proof (get_token_world env self0 w) as Hw.
  destruct (SMSTRAFFIC_SMSHandlerMixin._get_token env self0 w) as [r w1].
  simpl in He, Hw. now subst.
Qed.

(** X12: not every failed auth exchange is a [RuntimeError].  With status 200,
    a body that does not decode fails the construction with
    [JSONDecodeError], and a body that decodes to something other than a
    mapping fails it with [AttributeError]; in both cases the auth request
    was sent and no handler is returned. *)
Theorem get_handler_auth_body_malformed (env : Env) (w : World) :
  let req := auth_request (PStr "login") (PStr "pass") in
  let r := transport env (trace w) req in
  status_code r = 200%Z ->
  (json_loads env (text r) = None ->
   get_handler env "smstraffic.ru" "simple" None w
   = (inl JSONDecodeError, after_request w req))
  /\ (forall v, json_loads env (text r) = Some v ->
      is_dict v = false ->
      get_handler env "smstraffic.ru" "simple" None w
      = (inl (AttributeError "get"), after_request w req)).
Proof.
  cbv zeta. intros Hst. split.
  - intros Hbody. apply smstraffic_simple_default_run.
    rewrite get_token_run. cbv zeta. simpl login. simpl password.
    now rewrite status_200, Hbody.
  - intros v Hbody Hv. apply smstraffic_simple_default_run.
    rewrite get_token_run. cbv zeta. simpl login. simpl password.
    rewrite status_200, Hbody by assumption.
    destruct v; try reflexivity. discriminate.
Qed.

Lemma get_handler_auth_body_malformed_witness :
  get_handler (env_const 200 None) "smstraffic.ru" "simple" None world0
  = (inl JSONDecodeError,
     after_request world0 (auth_request (PStr "login") (PStr "pass")))
  /\ get_handler (env_const 200 (Some (PStr "token"))) "smstraffic.ru" "simple" None
       world0
     = (inl (AttributeError "get"),
        after_request world0 (auth_request (PStr "login") (PStr "pass"))).
Proof.
  split.
  - apply (proj1 (get_handler_auth_body_malformed (env_const 200 None) world0 eq_refl)).
    reflexivity.
  - apply (proj2 (get_handler_auth_body_malformed (env_const 200 (Some (PStr "token")))
                    world0 eq_refl) (PStr "token")); reflexivity.
Defined.

Lemma get_token_ok (env : Env) (self : Obj) (w : World) (tok : pyval) (d : dict) :
  fst (SMSTRAFFIC_SMSHandlerMixin._get_token env self w) = inr tok ->
  json_loads env (text (transport env (trace w)
                          (auth_request (login self) (password self))))
  = Some (PDict d) ->
  dict_lookup d "token" = Some tok.
Proof.
  rewrite get_token_run. cbv zeta. simpl fst.
  destruct (negb _); [discriminate|].
  intros H Hbody. rewrite Hbody in H.
  unfold dict_get in H.
  destruct (dict_lookup d "token") as [t|]; [|discriminate].
  destruct (is_None t); [discriminate|]. now injection H as ->.
Qed.

(** X13: the token of the auth response is the token of every later request.
    For a smstraffic.ru handler that [get_handler] returned, with either
    logger, the stored token is the [token] field of the mapping the auth
    response decoded to, and a [send] whose user data has no [token] key
    sends exactly one request, to the message URL, carrying that token. *)
Theorem auth_token_round_trip (env : Env) (logger_name : string)
        (handler_data : option dict) (w w1 w2 : World) (self : Obj)
        (d user_data : dict) :
  get_handler env "smstraffic.ru" logger_name handler_data w = (inr self, w1) ->
  json_loads env (text (transport env (trace w)
                          (auth_request (login self) (password self))))
  = Some (PDict d) ->
  dict_lookup user_data "token" = None ->
  exists t req,
    dict_lookup d "token" = Some t
    /\ token self = Some t
    /\ sent_requests w2 (snd (send env self user_data w2)) = [req]
    /\ req_url req = SMSTRAFFIC_SMSHandlerMixin.request_url
    /\ dict_lookup (req_payload req) "token" = Some t.
Proof.
  intros H Hbody Hud.
  destruct (registry_get loggers logger_name) as [lg|] eqn:Hl.
  2:{ unfold get_handler in H. rewrite Hl in H. discriminate. }
  rewrite (get_handler_run env "smstraffic.ru" logger_name handler_data
             SMSTRAFFIC_SMSHandlerMixin_cls lg eq_refl Hl) in H.
  pose proof (instantiate_ready _ _ _ _ _ _ H) as (Hcls & _).
  apply instantiate_ok in H. cbn [logger_base] in H.
  assert (Hself0 : exists self0 tok,
             fst (SMSTRAFFIC_SMSHandlerMixin._get_token env self0 w) = inr tok
             /\ login self = login self0 /\ password self = password self0
             /\ token self = Some tok).
  { destruct lg.
    - destruct H as (s1 & w1' & Hinit & -> & _).
      apply handler_init_ok in Hinit. cbn [handler_base] in Hinit.
      destruct Hinit as (self0 & _ & tok & Htok & -> & _).
      now exists self0, tok.
    - destruct H as (uri & s1 & w1' & st & _ & Hinit & _ & -> & _).
      apply handler_init_ok in Hinit. cbn [handler_base] in Hinit.
      destruct Hinit as (self0 & _ & tok & Htok & -> & _).
      now exists self0, tok. }
  destruct Hself0 as (self0 & tok & Htok & Hlogin & Hpw & Hts).
  rewrite Hlogin, Hpw in Hbody.
  pose proof (get_token_ok env self0 w tok d Htok Hbody) as Hd.
  exists tok, (smstraffic_request tok user_data).
  split; [exact Hd|]. split; [exact Hts|].
  split; [|split; [reflexivity|]].
  - unfold send. rewrite Hcls. cbn [handler_base].
    destruct (SMSTRAFFIC_send_trace env self tok user_data w2 Hts) as (evs & Ht & Hn).
    eapply sent_requests_one; eauto.
  - simpl. now rewrite dict_lookup_update_absent.
Qed.

Lemma auth_token_round_trip_witness :
  exists t req,
    dict_lookup [("token", PStr "a")] "token" = Some t
    /\ token smstraffic_simple = Some t
    /\ sent_requests world0
         (snd (send (env_auth 200 None) smstraffic_simple
                    [("phone", PStr "79149009900")] world0)) = [req]
    /\ req_url req = SMSTRAFFIC_SMSHandlerMixin.request_url
    /\ dict_lookup (req_payload req) "token" = Some t.
Proof.
  apply (auth_token_round_trip (env_auth 200 None) "simple" None world0
           (mkWorld [EvRequest (auth_request (PStr "login") (PStr "pass"));
                     EvGetLogger "sms"] [])
           world0 smstraffic_simple [("token", PStr "a")]
           [("phone", PStr "79149009900")]);
    reflexivity.
Defined.

(** ** From the factory to the log *)

(** X14: with the text logger a failing gateway never makes [send] raise.  On
    any handler that [get_handler] returned for the text logger, in any later
    world and for any user data, a [send] that is answered with a status
    other than 200 returns normally and leaves exactly two events: the
    request and one [ERROR] record with the phone (or ['-']) and the dump of
    the user data. *)
Theorem text_handler_logs_transport_failure (env : Env) (handler_name : string)
        (handler_data : option dict) (w w1 w2 : World) (self : Obj)
        (user_data : dict) :
  get_handler env handler_name "simple" handler_data w = (inr self, w1) ->
  (forall tr req, req_url req <> SMSTRAFFIC_SMSHandlerMixin.auth_url ->
                  status_code (transport env tr req) <> 200%Z) ->
  exists req,
    send env self user_data w2
    = (inr tt,
       mkWorld (trace w2
                  ++ [EvRequest req;
                      EvInfo "status: ERROR, phone: %s, message: %s"
                             [dict_get user_data "phone" (PStr "-");
                              PStr ("data: " ++ format_dict env user_data)]])
               (dbs w2)).
Proof.
  intros H Hfail.
  assert (Hlog : forall req,
            _log self (failure_outcome env user_data) (after_request w2 req)
            = (inr tt,
               mkWorld (trace w2
                          ++ [EvRequest req;
                              EvInfo "status: ERROR, phone: %s, message: %s"
                                     [dict_get user_data "phone" (PStr "-");
                                      PStr ("data: " ++ format_dict env user_data)]])
                       (dbs w2))
            /\ exists h, handler_base (obj_class self) = h
                 /\ match h with
                    | SMSCRU_SMSHandlerMixin_cls => True
                    | SMSTRAFFIC_SMSHandlerMixin_cls => exists t, token self = Some t
                    end).
  { intros req.
    destruct (registry_handlers_cases handler_name) as [[_ Hh] | [[_ Hh] | Hh]].
    3:{ unfold get_handler in H. rewrite Hh in H. discriminate. }
    all: rewrite (get_handler_run env handler_name "simple" handler_data _
                    SimpleLoggingMixin_cls Hh eq_refl) in H;
      apply instantiate_ready in H; cbn [logger_base handler_base] in H;
      destruct H as (Hcls & Ht & Hl & _);
      (split;
       [ unfold _log, failure_outcome; rewrite Hcls; cbn [logger_base];
         erewrite SimpleLoggingMixin_log_error by (try exact Hl; reflexivity);
         unfold after_request; simpl; now rewrite <- app_assoc
       | rewrite Hcls; cbn [handler_base]; eexists; split; [reflexivity|] ]).
    - exact I.
    - destruct Ht as (t & Ht & _). now exists t. }
  destruct (Hlog (smsc_request self user_data)) as (_ & h & Hh & Hm).
  destruct h.
  - exists (smsc_request self user_data).
    rewrite (send_SMSCRU_run env self user_data w2 Hh). cbv zeta.
    rewrite status_not_200 by (apply Hfail; discriminate).
    apply Hlog.
  - destruct Hm as [t Ht].
    exists (smstraffic_request t user_data).
    rewrite (send_SMSTRAFFIC_run env self t user_data w2 Hh Ht). cbv zeta.
    rewrite status_not_200 by (apply Hfail; discriminate).
    apply Hlog.
Qed.

Lemma text_handler_logs_transport_failure_witness :
  exists req,
    send (env_auth 500 None) smstraffic_simple [("phone", PStr "79149009900")] world0
    = (inr tt,
       mkWorld ([] ++ [EvRequest req;
                       EvInfo "status: ERROR, phone: %s, message: %s"
                              [PStr "79149009900"; PStr "data: {}"]])
               []).
Proof.
  apply (text_handler_logs_transport_failure (env_auth 500 None) "smstraffic.ru" None
           world0
           (mkWorld [EvRequest (auth_request (PStr "login") (PStr "pass"));
                     EvGetLogger "sms"] [])
           world0 smstraffic_simple [("phone", PStr "79149009900")]).
  - reflexivity.
  - intros tr req Hurl. simpl.
    destruct (String.eqb (req_url req) SMSTRAFFIC_SMSHandlerMixin.auth_url) eqn:E.
    + apply String.eqb_eq in E. contradiction.
    + simpl. lia.
Defined.

(** X15: with the SQLite logger a failed transport becomes a row.  On a
    handler whose store has the table and no open transaction, and for user
    data whose [phone] is a string or is absent, a [send] that is answered
    with a status other than 200 returns normally having sent one request and
    committed exactly the row [(0, phone or '-', NULL, 'data: ...')]. *)
Theorem sqlite_handler_records_transport_failure (env : Env) (self : Obj)
        (user_data : dict) (w : World) (cur : string) (s : Store) :
  logger_base (obj_class self) = SQLiteLoggingMixin_cls ->
  c self = Some cur ->
  store_lookup (dbs w) cur = Some s ->
  has_table s = true ->
  pending s = [] ->
  (handler_base (obj_class self) = SMSTRAFFIC_SMSHandlerMixin_cls ->
   token self <> None) ->
  (forall tr req, status_code (transport env tr req) <> 200%Z) ->
  (dict_lookup user_data "phone" = None
   \/ exists p, dict_lookup user_data "phone" = Some (PStr p)) ->
  exists req,
    send env self user_data w
    = (inr tt,
       mkWorld (trace w ++ [EvRequest req])
         (store_put (dbs w) cur
            (mkStore true
               (committed s
                  ++ [mkRow 0 (dict_get user_data "phone" (PStr "-")) PNone
                            (PStr ("data: " ++ format_dict env user_data))])
               []))).
Proof.
  intros Hlg Hc Hs Ht Hp Htok Hfail Hphone.
  assert (Hq : exists q, dict_get user_data "phone" (PStr "-") = PStr q).
  { unfold dict_get. destruct Hphone as [-> | [p ->]]; eauto. }
  destruct Hq as [q Hq].
  assert (Hlog : forall req,
            _log self (failure_outcome env user_data) (after_request w req)
            = (inr tt,
               mkWorld (trace w ++ [EvRequest req])
                 (store_put (dbs w) cur
                    (mkStore true
                       (committed s
                          ++ [mkRow 0 (dict_get user_data "phone" (PStr "-")) PNone
                                    (PStr ("data: " ++ format_dict env user_data))])
                       [])))).
  { intros req. unfold _log, failure_outcome. rewrite Hlg.
    unfold SQLiteLoggingMixin._log, py_get, py_getitem, getattr. rewrite Hc.
    cbn [bind ret is_None eq_str String.eqb Ascii.eqb Bool.eqb dict_get dict_lookup].
    erewrite insert_then_commit;
      [ | simpl; exact Hs | exact Ht | simpl; now rewrite Hq | reflexivity
        | reflexivity | left; reflexivity | simpl; now rewrite Hq ].
    now rewrite Ht, Hp. }
  destruct (handler_base (obj_class self)) eqn:Hh.
  - exists (smsc_request self user_data).
    rewrite (send_SMSCRU_run env self user_data w Hh). cbv zeta.
    rewrite status_not_200 by apply Hfail. apply Hlog.
  - destruct (token self) as [t|] eqn:Et; [|now destruct (Htok eq_refl)].
    exists (smstraffic_request t user_data).
    rewrite (send_SMSTRAFFIC_run env self t user_data w Hh Et). cbv zeta.
    rewrite status_not_200 by apply Hfail. apply Hlog.
Qed.

Lemma sqlite_handler_records_transport_failure_witness :
  exists req,
    send (env_const 503 None) smsc_sqlite [("mes", PStr "hi")] world_db
    = (inr tt,
       mkWorld ([] ++ [EvRequest req])
         (store_put (dbs world_db) default_db_uri
            (mkStore true ([] ++ [mkRow 0 (PStr "-") PNone (PStr "data: {}")]) []))).
Proof.
  apply (sqlite_handler_records_transport_failure (env_const 503 None) smsc_sqlite
           [("mes", PStr "hi")] world_db default_db_uri (mkStore true [] []));
    try reflexivity.
  - discriminate.
  - intros tr req. simpl. lia.
  - left. reflexivity.
Defined.

(** X16: an outcome without a status, or with [None] for it, is refused in the
    same way by every handler: [_log] raises the [ValueError] about the
    missing field, whichever logger the class was composed with and whether or
    not the logger is set up, and nothing is logged. *)
Theorem log_missing_status_ValueError (self : Obj) (d : dict) (w : World) :
  dict_lookup d "status" = None \/ dict_lookup d "status" = Some PNone ->
  _log self (PDict d) w = (inl (ValueError status_missing_msg), w)
  /\ is_ValueError (ValueError status_missing_msg) = true.
Proof.
  intros H.
  assert (Hn : is_None (dict_get d "status" PNone) = true).
  { unfold dict_get. destruct H as [-> | ->]; reflexivity. }
  destruct (log_status_missing self d w Hn) as [Hs Hq].
  split; [|reflexivity].
  unfold _log. now destruct (logger_base _).
Qed.

Lemma log_missing_status_ValueError_witness :
  _log smsc_simple (PDict []) world0 = (inl (ValueError status_missing_msg), world0)
  /\ _log smsc_sqlite (PDict [("status", PNone); ("phone", PStr "1")]) world_db
     = (inl (ValueError status_missing_msg), world_db).
Proof.
  split.
  - apply (proj1 (log_missing_status_ValueError smsc_simple [] world0
                    (or_introl eq_refl))).
  - apply (proj1 (log_missing_status_ValueError smsc_sqlite
                    [("status", PNone); ("phone", PStr "1")] world_db
                    (or_intror eq_refl))).
Defined.

(** X17: the loggers read only their own fields.  Two outcomes that agree on
    [status], [phone] and [error_msg] are logged alike by the text logger,
    which never reads [error_code]; two outcomes that also agree on
    [error_code] are stored alike by the SQLite logger.  Any other field the
    gateway adds changes nothing. *)
Theorem loggers_read_only_their_fields (self : Obj) (d d' : dict) (w : World) :
  dict_lookup d "status" = dict_lookup d' "status" ->
  dict_lookup d "phone" = dict_lookup d' "phone" ->
  dict_lookup d "error_msg" = dict_lookup d' "error_msg" ->
  SimpleLoggingMixin._log self (PDict d) w = SimpleLoggingMixin._log self (PDict d') w
  /\ (dict_lookup d "error_code" = dict_lookup d' "error_code" ->
      SQLiteLoggingMixin._log self (PDict d) w
      = SQLiteLoggingMixin._log self (PDict d') w).
Proof.
  intros Hs Hp Hm. split.
  - unfold SimpleLoggingMixin._log, py_get, py_getitem, dict_get.
    now rewrite Hs, Hp, Hm.
  - intros Hc.
    unfold SQLiteLoggingMixin._log, py_get, py_getitem, dict_get.
    now rewrite Hs, Hp, Hm, Hc.
Qed.

Lemma loggers_read_only_their_fields_witness :
  SimpleLoggingMixin._log smsc_simple
    (PDict [("status", PStr "error"); ("phone", PStr "1"); ("error_msg", PStr "m")])
    world0
  = SimpleLoggingMixin._log smsc_simple
      (PDict [("id", PInt 7); ("status", PStr "error"); ("phone", PStr "1");
              ("error_code", PInt 3500); ("error_msg", PStr "m")])
      world0.
Proof.
  apply (proj1 (loggers_read_only_their_fields smsc_simple
                  [("status", PStr "error"); ("phone", PStr "1");
                   ("error_msg", PStr "m")]
                  [("id", PInt 7); ("status", PStr "error"); ("phone", PStr "1");
                   ("error_code", PInt 3500); ("error_msg", PStr "m")]
                  world0 eq_refl eq_refl eq_refl)).
Defined.


